(** * autosite: routes derived from the layout of template files

    A shallow embedding of package [autosite] (hkjn/autosite).  The
    development follows the newer of the two revisions of the package
    (the one with [AddRedirect] and [redirectURI]); [parsePath],
    [getDate], [getFiles], [before] and [ChangeURI] read the same in
    both revisions, and the older request handler is kept in
    [Module Legacy].

    Go strings are byte strings and are modelled by [string]; Go's [int],
    [int64] and [uint64] are modelled by [Z] with the wrap-around of the
    one place that relies on it ([ParseUint]) written out; the registry
    [map[string]page] is a [gmap string page].  A function that returns
    [(value, error)] returns a pair with an [option] error, [None] for
    [nil].  [log.Fatalf] and panics end a call with [Fatal] and [Panic].
    The log lines ([log.Printf], [c.Infof], [c.Errorf]) and [page.String],
    which only feeds them, are left out. *)

From Stdlib Require Import ZArith Lia Ascii String List Bool.
From stdpp Require Import gmap strings list fin_maps.

Local Open Scope string_scope.
Local Open Scope Z_scope.

(** ** Package [strings] (the functions the package calls) *)

Module strings.

(** [strings.HasPrefix]. *)
Definition HasPrefix (s pre : string) : bool := String.prefix pre s.

(** [strings.Contains(s, substr)]: some position of [s] starts an
    occurrence of [substr]. *)
Fixpoint Contains (s substr : string) : bool :=
  HasPrefix s substr ||
  match s with
  | EmptyString => false
  | String _ s' => Contains s' substr
  end.

(** [strings.HasSuffix]: [len(s) >= len(suffix) &&
    s[len(s)-len(suffix):] == suffix]. *)
Definition HasSuffix (s suffix : string) : bool :=
  (String.length suffix <=? String.length s)%nat &&
  String.eqb
    (substring (String.length s - String.length suffix)
               (String.length suffix) s)
    suffix.

(** [strings.TrimSuffix]: [s[:len(s)-len(suffix)]] when [s] ends in
    [suffix], and [s] itself otherwise. *)
Definition TrimSuffix (s suffix : string) : string :=
  if HasSuffix s suffix
  then substring 0 (String.length s - String.length suffix) s
  else s.

(** Fields of [s] from the current position on; [skip] counts the bytes
    of a separator occurrence that are still to be passed over. *)
Fixpoint splitFrom (sep : string) (skip : nat) (s : string) : list string :=
  match s with
  | EmptyString => [EmptyString]
  | String c s' =>
      match skip with
      | S k => splitFrom sep k s'
      | O =>
          if HasPrefix s sep
          then EmptyString :: splitFrom sep (String.length sep - 1) s'
          else match splitFrom sep 0 s' with
               | field :: rest => String c field :: rest
               | [] => [String c EmptyString]
               end
      end
  end.

(** [strings.Split(s, sep)] for a non-empty separator: the substrings
    between the occurrences of [sep], found from left to right without
    overlap; a string without [sep] (also the empty string) gives one
    field. *)
Definition Split (s sep : string) : list string := splitFrom sep 0 s.

(** [strings.Join(elems, sep)]. *)
Fixpoint Join (elems : list string) (sep : string) : string :=
  match elems with
  | [] => EmptyString
  | [e] => e
  | e :: rest => e ++ sep ++ Join rest sep
  end.

End strings.

(** ** Package [strconv]: [ParseInt] *)

Module strconv.

Inductive NumError := ErrSyntax | ErrRange | ErrBase.

(** Word size of [int] on the platform the program is built for. *)
Inductive arch := Arch32 | Arch64.

Definition IntSize (a : arch) : Z :=
  match a with Arch32 => 32 | Arch64 => 64 end.

Definition byteOf (c : ascii) : Z := Z.of_N (N_of_ascii c).

(** Value of a digit byte: ['0'..'9'], ['a'..'z'] and ['A'..'Z'];
    [None] for any other byte. *)
Definition digitVal (c : ascii) : option Z :=
  let d := byteOf c in
  if (48 <=? d) && (d <=? 57) then Some (d - 48)
  else if (97 <=? d) && (d <=? 122) then Some (d - 97 + 10)
  else if (65 <=? d) && (d <=? 90) then Some (d - 65 + 10)
  else None.

Definition maxUint64 : Z := 2 ^ 64 - 1.

(** The digit loop of [ParseUint]: [n] is a [uint64], so the sum
    [n*base + v] wraps modulo [2^64], which the code detects by
    [n1 < n].  On overflow the loop returns [1<<64 - 1] (newer releases:
    [maxVal]); [ParseInt] replaces either by its own bound. *)
Fixpoint parseDigits (base maxVal n : Z) (s : string) : Z * option NumError :=
  match s with
  | EmptyString => (n, None)
  | String c s' =>
      match digitVal c with
      | None => (0, Some ErrSyntax)
      | Some v =>
          if base <=? v then (0, Some ErrSyntax)
          else if maxUint64 / base + 1 <=? n then (maxUint64, Some ErrRange)
          else
            let n' := n * base in
            let n1 := (n' + v) mod 2 ^ 64 in
            if (n1 <? n') || (maxVal <? n1) then (maxUint64, Some ErrRange)
            else parseDigits base maxVal n1 s'
      end
  end.

(** [strconv.ParseUint(s, base, bitSize)] for [2 <= base <= 36].  Base 0
    (the base taken from a prefix of [s]) is not used by the package and
    is reported like any other base outside [2..36]. *)
Definition ParseUint (a : arch) (s : string) (base bitSize : Z)
  : Z * option NumError :=
  let bitSize := if bitSize =? 0 then IntSize a else bitSize in
  if (String.length s <? 1)%nat then (0, Some ErrSyntax)
  else if (2 <=? base) && (base <=? 36)
       then parseDigits base (2 ^ bitSize - 1) 0 s
       else (0, Some ErrBase).

(** [strconv.ParseInt(s, base, bitSize)]: an optional sign, then
    [ParseUint]; a range error of [ParseUint] is let through to the
    comparison with [cutoff = 2^(bitSize-1)]. *)
Definition ParseInt (a : arch) (s : string) (base bitSize : Z)
  : Z * option NumError :=
  match s with
  | EmptyString => (0, Some ErrSyntax)
  | String c0 rest =>
      let neg := Ascii.eqb c0 "-" in
      let s1 := if Ascii.eqb c0 "+" || neg then rest else s in
      let '(un, err) := ParseUint a s1 base bitSize in
      match err with
      | Some ErrSyntax => (0, err)
      | Some ErrBase => (0, err)
      | _ =>
          let bitSize := if bitSize =? 0 then IntSize a else bitSize in
          let cutoff := 2 ^ (bitSize - 1) in
          if negb neg && (cutoff <=? un) then (cutoff - 1, Some ErrRange)
          else if neg && (cutoff <? un) then (- cutoff, Some ErrRange)
          else (if neg then - un else un, None)
      end
  end.

End strconv.

(** ** Package [autosite]: data *)

Export strconv (arch(..)).

Inductive error :=
| ErrGlob (msg : string)             (* an error of [filepath.Glob] *)
| ErrNoPagesFound                    (* "no pages found" *)
| ErrBadTemplatePath (p : string)    (* "bad template path: %s" *)
| ErrBadYear (y : string)            (* "bad year: %v" *)
| ErrBadMonth (m : string).          (* "bad month: %v" *)

(** [err != nil]. *)
Definition notNil {E : Type} (err : option E) : bool :=
  match err with Some _ => true | None => false end.

(** [type date struct { Year year; Month time.Month }]; both fields are
    Go [int]s.  [zeroDate] is [date{}]. *)
Record date := mkDate { Year : Z; Month : Z }.

Definition zeroDate : date := mkDate 0 0.

(** [func (d date) before(other date) bool]. *)
Definition before (d other : date) : bool :=
  if Year d <? Year other then true
  else if Year d =? Year other then Month d <? Month other
  else false.

(** [getDate]: the date of a post from its year and month strings.  The
    conversions [year(y64)] and [time.Month(month)] are applied to values
    below [99999] and [13] and lose nothing. *)
Definition getDate (a : arch) (y m : string) : date * option error :=
  let '(y64, err) := strconv.ParseInt a y 10 0 in
  if notNil err || (y64 <=? 1900) || (99999 <=? y64)
  then (zeroDate, Some (ErrBadYear y))
  else
    let '(month, err) := strconv.ParseInt a m 10 0 in
    if notNil err || (month <? 1) || (12 <? month)
    then (zeroDate, Some (ErrBadMonth m))
    else (mkDate y64 month, None).

(** [parsePath]: URI and date from a template file path.  The results are
    named in the source, so the [uri] already assigned is returned with
    the error of [getDate]. *)
Definition parsePath (a : arch) (p : string) : string * date * option error :=
  let parts := strings.Split p "/" in
  let part i := nth i parts "" in
  if (length parts =? 2)%nat then
    ("/" ++ strings.TrimSuffix (part 1%nat) ".tmpl", zeroDate, None)
  else if (length parts =? 4)%nat then
    let uri :=
      "/" ++ strings.Join
               [part 1%nat; part 2%nat; strings.TrimSuffix (part 3%nat) ".tmpl"]
               "/" in
    let '(d, err) := getDate a (part 1%nat) (part 2%nat) in
    match err with
    | Some _ => (uri, d, err)
    | None => (uri, d, None)
    end
  else ("", zeroDate, Some (ErrBadTemplatePath p)).

(** The body of the loop of [getFiles]: [r[i] = p; i++] unless [p]
    contains [".#"]. *)
Definition keepPath (st : list string * nat) (p : string) : list string * nat :=
  let '(r, i) := st in
  if strings.Contains p ".#" then (r, i) else (<[i := p]> r, S i).

(** The part of [getFiles] after [filepath.Glob] has returned [(paths, err)]. *)
Definition filterFiles (globbed : list string * option error)
  : list string * option error :=
  let '(paths, err) := globbed in
  match err with
  | Some _ => ([], err)
  | None =>
      if (length paths =? 0)%nat then ([], Some ErrNoPagesFound)
      else
        let '(r, i) := fold_left keepPath paths (replicate (length paths) "", 0%nat) in
        (take i r, None)
  end.

(** What a handler does to its [http.ResponseWriter], as the calls the
    package makes; [WriteBody] is a [Write] of the template engine. *)
Inductive httpCall :=
| NotFound                             (* [http.NotFound(w, r)] *)
| Redirect (url : string) (code : Z)   (* [http.Redirect(w, r, url, code)] *)
| WriteBody (chunk : string)           (* [w.Write(chunk)] *)
| Error (msg : string) (code : Z).     (* [http.Error(w, msg, code)] *)

Definition StatusOK : Z := 200.
Definition StatusFound : Z := 302.
Definition StatusNotFound : Z := 404.
Definition StatusInternalServerError : Z := 500.

(** The status line a call sends when the header is not written yet. *)
Definition callStatus (c : httpCall) : Z :=
  match c with
  | NotFound => StatusNotFound
  | Redirect _ code => code
  | WriteBody _ => StatusOK
  | Error _ code => code
  end.

(** The status of the response: that of the first call, later calls find
    the header written; [None] when the handler wrote nothing. *)
Definition status (calls : list httpCall) : option Z :=
  callStatus <$> head calls.


(** How a handler call ends: it returns, the process exits
    ([log.Fatal]), or it panics. *)
Inductive ending := Returns | Exits | Panics.

Record Request := mkRequest { RequestURI : string }.

(** [template.FuncMap] of [getFuncs]: the values of [live] and [domain]. *)
Record FuncMap := mkFuncMap { live : bool; domain : string }.

(** ** The older revision of the request handler *)

Module Legacy.
Section Handler.

Variable Template : Type.
Variable Any : Type.

Record page := mkPage {
  Title : string;
  Date : date;
  URI : string;
  IsLive : bool;
  Data : option Any;
  tmpl : option Template;
}.

Variable ExecuteTemplate : Template -> string -> page -> list string * option string.

Definition ServeHTTP (p : page) (r : Request) : list httpCall * ending :=
  if negb (String.eqb (URI p) (RequestURI r)) then ([NotFound], Returns)
  else
    match tmpl p with
    | None => ([], Panics)
    | Some t =>
        let '(chunks, err) := ExecuteTemplate t "base" p in
        match err with
        | Some _ =>
            (((WriteBody <$> chunks)
                ++ [Error "Internal server error." StatusInternalServerError])%list,
             Exits)
        | None => (WriteBody <$> chunks, Returns)
        end
    end.

End Handler.
End Legacy.

(** ** Reading of "parses as an integer" used by the statements

    The decimal numerals: an optional sign and one or more of the digits
    ['0'..'9'], with their value in [Z], whatever its size. *)

Definition isDecimalDigit (c : ascii) : bool :=
  (48 <=? strconv.byteOf c) && (strconv.byteOf c <=? 57).

Fixpoint digitsValue (n : Z) (s : string) : option Z :=
  match s with
  | EmptyString => Some n
  | String c s' =>
      if isDecimalDigit c
      then digitsValue (10 * n + (strconv.byteOf c - 48)) s'
      else None
  end.

Definition unsignedDecimal (s : string) : option Z :=
  match s with
  | EmptyString => None
  | _ => digitsValue 0 s
  end.

Definition decimal (s : string) : option Z :=
  match s with
  | EmptyString => None
  | String c rest =>
      if Ascii.eqb c "+" then unsignedDecimal rest
      else if Ascii.eqb c "-" then Z.opp <$> unsignedDecimal rest
      else unsignedDecimal s
  end.

(** The paths [getFiles] is to keep: those without [".#"], in order. *)
Definition withoutLockFiles (paths : list string) : list string :=
  List.filter (fun p => negb (strings.Contains p ".#")) paths.

(** ** Package [autosite]: the site and its registry *)

Section Site.

(** Outside the package: compiled templates ([*template.Template]), the
    values of [interface{}], the platform, [appengine.IsDevAppServer()],
    the package variable [BaseTemplate], [filepath.Glob], and template
    compilation and execution.  [ExecuteTemplate] gives the chunks it
    wrote to the response and its error. *)
Variable Template : Type.
Variable Any : Type.
Variable GOARCH : arch.
Variable IsDevAppServer : bool.
Variable BaseTemplate : string.
Variable Glob : string -> list string * option error.
Variable ParseFiles : string -> FuncMap -> list string -> Template + string.

Record page := mkPage {
  Title : string;              (* title, for <head> *)
  Date : date;                 (* publishing date *)
  URI : string;                (* URI path *)
  Data : option Any;           (* custom data, if any *)
  redirectURI : string;        (* URI to redirect to *)
  tmpl : option Template;      (* backing template; [None] is [nil] *)
}.

Variable ExecuteTemplate : Template -> string -> page -> list string * option string.

(** [pages] is the map [New] allocates in [read] before the first
    insertion. *)
Record Site := mkSite {
  liveDomain : string;         (* live domain *)
  title : string;              (* title of the site *)
  glob : string;               (* file glob for page templates *)
  templates : list string;     (* templates needed for all endpoints *)
  pages : gmap string page;    (* URI -> page mapping *)
}.

Definition setPages (s : Site) (m : gmap string page) : Site :=
  mkSite (liveDomain s) (title s) (glob s) (templates s) m.

Definition setURI (p : page) (uri : string) : page :=
  mkPage (Title p) (Date p) uri (Data p) (redirectURI p) (tmpl p).

(** The ways a call ends other than by returning: [log.Fatalf] with its
    message, or a panic. *)
Inductive fatal :=
| FatalError (e : error)                 (* [New]: [log.Fatalf(err.Error())] *)
| FatalNoPage (uri : string)             (* "no page with URI %v" *)
| FatalTaken (p : page) (uri : string).  (* "page %v already is registered for URI %s" *)

Inductive outcome (A : Type) :=
| Ok (a : A)
| Fatal (f : fatal)
| Panic (msg : string).

Arguments Ok {A} a.
Arguments Fatal {A} f.
Arguments Panic {A} msg.

Definition andThen {A B : Type} (m : outcome A) (k : A -> outcome B) : outcome B :=
  match m with
  | Ok a => k a
  | Fatal f => Fatal f
  | Panic msg => Panic msg
  end.

#[local] Instance outcome_bind : MBind outcome :=
  fun A B k m => andThen m k.

(** [template.Must]. *)
Definition Must (r : Template + string) : outcome Template :=
  match r with
  | inl t => Ok t
  | inr msg => Panic msg
  end.

(** [getFuncs]: [live] is [!appengine.IsDevAppServer()], [domain] the
    live domain when live. *)
Definition getFuncs (s : Site) : FuncMap :=
  let isLive := negb IsDevAppServer in
  mkFuncMap isLive (if isLive then liveDomain s else "").

(** [getFiles]: all pages' file paths from disk. *)
Definition getFiles (s : Site) : list string * option error :=
  filterFiles (Glob (glob s)).

(** [addPage]. *)
Definition addPage (s : Site) (uri : string) (d : date) (data : option Any)
           (tmpls : list string) : outcome Site :=
  t ← (if (0 <? length tmpls)%nat
       then (t ← Must (ParseFiles BaseTemplate (getFuncs s) tmpls); Ok (Some t))
       else Ok None);
  Ok (setPages s (<[uri := mkPage (title s) d uri data "" t]> (pages s))).

(** The loop of [read] over the file paths. *)
Fixpoint readPages (s : Site) (filePaths : list string)
  : outcome (Site * option error) :=
  match filePaths with
  | [] => Ok (s, None)
  | tmplPath :: rest =>
      let '(uri, d, err) := parsePath GOARCH tmplPath in
      match err with
      | Some _ => Ok (s, err)
      | None =>
          s' ← addPage s uri d None (templates s ++ [tmplPath])%list;
          readPages s' rest
      end
  end.

(** [read]: the pages to serve, from disk. *)
Definition read (s : Site) : outcome (Site * option error) :=
  let '(filePaths, err) := getFiles s in
  match err with
  | Some _ => Ok (s, err)
  | None => readPages (setPages s ∅) filePaths
  end.

(** [New]. *)
Definition New (title glob liveDomain : string) (templates : list string)
  : outcome Site :=
  r ← read (mkSite liveDomain title glob templates ∅);
  match r with
  | (_, Some e) => Fatal (FatalError e)
  | (s, None) => Ok s
  end.

(** [ChangeURI]. *)
Definition ChangeURI (s : Site) (uri newURI : string) : outcome Site :=
  match pages s !! uri with
  | None => Fatal (FatalNoPage uri)
  | Some p =>
      let p := setURI p newURI in
      Ok (setPages s (<[newURI := p]> (delete uri (pages s))))
  end.

(** [AddRedirect]. *)
Definition AddRedirect (s : Site) (uri redirectURI : string) : outcome Site :=
  match pages s !! uri with
  | Some p => Fatal (FatalTaken p uri)
  | None =>
      Ok (setPages s
            (<[uri := mkPage (title s) zeroDate uri None redirectURI None]>
               (pages s)))
  end.

(** [Register]: the calls of [http.Handle], pattern and handler (in the
    order of [map_to_list]; Go leaves the order of a map range open). *)
Definition Register (s : Site) : list (string * page) :=
  (fun '(uri, p) =>
     (if IsDevAppServer then uri else liveDomain s ++ URI p, p))
    <$> map_to_list (pages s).

(** [ServeHTTP]: the calls on the response writer and how the handler
    ends.  With a [nil] template [p.tmpl.ExecuteTemplate] panics before
    anything is written. *)
Definition ServeHTTP (p : page) (r : Request) : list httpCall * ending :=
  if negb (String.eqb (URI p) (RequestURI r)) then ([NotFound], Returns)
  else if negb (String.eqb (redirectURI p) "") then
    ([Redirect (redirectURI p) StatusFound], Returns)
  else
    match tmpl p with
    | None => ([], Panics)
    | Some t =>
        let '(chunks, err) := ExecuteTemplate t BaseTemplate p in
        match err with
        | Some _ =>
            (((WriteBody <$> chunks)
                ++ [Error "Internal server error." StatusInternalServerError])%list,
             Exits)
        | None => (WriteBody <$> chunks, Returns)
        end
    end.

(** The mutations of the registry open to the client after [New], and
    a sequence of them run in order. *)
Inductive mutation :=
| DoChangeURI (uri newURI : string)
| DoAddRedirect (uri redirectURI : string).

Definition mutate (s : Site) (c : mutation) : outcome Site :=
  match c with
  | DoChangeURI uri newURI => ChangeURI s uri newURI
  | DoAddRedirect uri redirectURI => AddRedirect s uri redirectURI
  end.

Fixpoint mutateAll (s : Site) (cs : list mutation) : outcome Site :=
  match cs with
  | [] => Ok s
  | c :: cs' => s' ← mutate s c; mutateAll s' cs'
  end.

(** *** Properties of the registry used in the statements *)

(** Every page is stored under its own URI. *)
Definition keyedByURI (m : gmap string page) : Prop :=
  forall k p, m !! k = Some p -> URI p = k.

(** A page has a compiled template and no redirect target, or a
    redirect target and no compiled template. *)
Definition templateXorRedirect (p : page) : Prop :=
  (is_Some (tmpl p) /\ redirectURI p = "")
  \/ (tmpl p = None /\ redirectURI p <> "").

Definition redirectGiven (c : mutation) : Prop :=
  match c with
  | DoChangeURI _ _ => True
  | DoAddRedirect _ redirectURI => redirectURI <> ""
  end.

End Site.

Arguments Title {Template Any} p.
Arguments Date {Template Any} p.
Arguments URI {Template Any} p.
Arguments Data {Template Any} p.
Arguments redirectURI {Template Any} p.
Arguments tmpl {Template Any} p.
Arguments mkPage {Template Any} Title Date URI Data redirectURI tmpl.
Arguments pages {Template Any} s.
Arguments title {Template Any} s.
Arguments liveDomain {Template Any} s.
Arguments glob {Template Any} s.
Arguments templates {Template Any} s.
Arguments mkSite {Template Any} liveDomain title glob templates pages.
Arguments setPages {Template Any} s m.
Arguments setURI {Template Any} p uri.
Arguments FatalError {Template Any} e.
Arguments FatalNoPage {Template Any} uri.
Arguments FatalTaken {Template Any} p uri.
Arguments Ok {Template Any A} a.
Arguments Fatal {Template Any A} f.
Arguments Panic {Template Any A} msg.
Arguments andThen {Template Any A B} m k.
Arguments getFiles {Template Any} Glob s.
Arguments addPage {Template Any} IsDevAppServer BaseTemplate ParseFiles s uri d data tmpls.
Arguments readPages {Template Any} GOARCH IsDevAppServer BaseTemplate ParseFiles s filePaths.
Arguments read {Template Any} GOARCH IsDevAppServer BaseTemplate Glob ParseFiles s.
Arguments New {Template Any} GOARCH IsDevAppServer BaseTemplate Glob ParseFiles
  title glob liveDomain templates.
Arguments ChangeURI {Template Any} s uri newURI.
Arguments AddRedirect {Template Any} s uri redirectURI.
Arguments ServeHTTP {Template Any} BaseTemplate ExecuteTemplate p r.
Arguments mutate {Template Any} s c.
Arguments mutateAll {Template Any} s cs.
Arguments keyedByURI {Template Any} m.
Arguments templateXorRedirect {Template Any} p.
Arguments Legacy.URI {Template Any} p.
Arguments Legacy.tmpl {Template Any} p.
Arguments Legacy.mkPage {Template Any} Title Date URI IsLive Data tmpl.
Arguments Legacy.ServeHTTP {Template Any} ExecuteTemplate p r.

(** Number of occurrences of the byte [c] in [s]. *)
Fixpoint countByte (c : ascii) (s : string) : nat :=
  match s with
  | EmptyString => 0%nat
  | String c' s' => ((if Ascii.eqb c' c then 1 else 0) + countByte c s')%nat
  end.

(** ** The site of the older revision

    [Site], [addPage], [read], [New], [ChangeURI] and [Register] of the
    older revision, over its [page] (with [IsLive], without
    [redirectURI]).  Its [addPage] compiles by [template.ParseFiles]
    whatever the number of files, and stores the page under [p.URI]. *)

Arguments Legacy.Title {Template Any} p.
Arguments Legacy.Date {Template Any} p.
Arguments Legacy.IsLive {Template Any} p.
Arguments Legacy.Data {Template Any} p.

Module LegacySite.
Section Site.

Variable Template : Type.
Variable Any : Type.
Variable GOARCH : arch.
Variable IsDevAppServer : bool.
Variable Glob : string -> list string * option error.
Variable ParseFiles : list string -> Template + string.

Record Site := mkSite {
  live : string;               (* live domain *)
  title : string;              (* title of the domain *)
  glob : string;               (* file glob for page templates *)
  templates : list string;     (* templates needed for all endpoints *)
  pages : gmap string (Legacy.page Template Any);
}.

Definition setPages (s : Site) (m : gmap string (Legacy.page Template Any)) : Site :=
  mkSite (live s) (title s) (glob s) (templates s) m.

Definition setURI (p : Legacy.page Template Any) (uri : string)
  : Legacy.page Template Any :=
  Legacy.mkPage (Legacy.Title p) (Legacy.Date p) uri (Legacy.IsLive p)
                (Legacy.Data p) (Legacy.tmpl p).

Definition getFiles (s : Site) : list string * option error :=
  filterFiles (Glob (glob s)).

Definition addPage (s : Site) (uri : string) (d : date) (data : option Any)
           (tmpls : list string) : outcome Template Any Site :=
  andThen (Must Template Any (ParseFiles tmpls)) (fun t =>
  let p := Legacy.mkPage (title s) d uri (negb IsDevAppServer) data (Some t) in
  Ok (setPages s (<[Legacy.URI p := p]> (pages s)))).

Fixpoint readPages (s : Site) (filePaths : list string)
  : outcome Template Any (Site * option error) :=
  match filePaths with
  | [] => Ok (s, None)
  | tmplPath :: rest =>
      let '(uri, d, err) := parsePath GOARCH tmplPath in
      match err with
      | Some _ => Ok (s, err)
      | None =>
          andThen (addPage s uri d None (templates s ++ [tmplPath])%list)
                  (fun s' => readPages s' rest)
      end
  end.

Definition read (s : Site) : outcome Template Any (Site * option error) :=
  let '(filePaths, err) := getFiles s in
  match err with
  | Some _ => Ok (s, err)
  | None => readPages (setPages s ∅) filePaths
  end.

Definition New (title glob live : string) (templates : list string)
  : outcome Template Any Site :=
  andThen (read (mkSite live title glob templates ∅)) (fun r =>
  match r with
  | (_, Some e) => Fatal (FatalError e)
  | (s, None) => Ok s
  end).

Definition ChangeURI (s : Site) (uri newURI : string) : outcome Template Any Site :=
  match pages s !! uri with
  | None => Fatal (FatalNoPage uri)
  | Some p =>
      let p := setURI p newURI in
      Ok (setPages s (<[newURI := p]> (delete uri (pages s))))
  end.

Definition Register (s : Site) : list (string * Legacy.page Template Any) :=
  (fun '(uri, p) =>
     (if IsDevAppServer then uri else live s ++ Legacy.URI p, p))
    <$> map_to_list (pages s).

Fixpoint changeAll (s : Site) (moves : list (string * string))
  : outcome Template Any Site :=
  match moves with
  | [] => Ok s
  | (uri, newURI) :: rest =>
      andThen (ChangeURI s uri newURI) (fun s' => changeAll s' rest)
  end.

End Site.
End LegacySite.

Arguments LegacySite.mkSite {Template Any} live title glob templates pages.
Arguments LegacySite.pages {Template Any} s.
Arguments LegacySite.live {Template Any} s.
Arguments LegacySite.title {Template Any} s.
Arguments LegacySite.templates {Template Any} s.
Arguments LegacySite.setPages {Template Any} s m.
Arguments LegacySite.setURI {Template Any} p uri.
Arguments LegacySite.addPage {Template Any} IsDevAppServer ParseFiles s uri d data tmpls.
Arguments LegacySite.readPages {Template Any} GOARCH IsDevAppServer ParseFiles s filePaths.
Arguments LegacySite.New {Template Any} GOARCH IsDevAppServer Glob ParseFiles
  title glob live templates.
Arguments LegacySite.ChangeURI {Template Any} s uri newURI.
Arguments LegacySite.changeAll {Template Any} s moves.
Arguments LegacySite.Register {Template Any} IsDevAppServer s.

(** A page as the older [addPage] builds it, under its key. *)
Definition legacyBuilt {Template Any : Type} (IsDevAppServer : bool)
           (k : string) (p : Legacy.page Template Any) : Prop :=
  Legacy.URI p = k /\ is_Some (Legacy.tmpl p)
  /\ Legacy.IsLive p = negb IsDevAppServer.

(** ** Concrete surroundings for the examples *)

Definition blogGlob (pattern : string) : list string * option error :=
  (["pages/index.tmpl"; "pages/2014/05/hello.tmpl"], None).

Definition lockFileGlob (pattern : string) : list string * option error :=
  (["pages/.#index.tmpl"], None).

Definition compiles (name : string) (funcs : FuncMap) (tmpls : list string)
  : unit + string := inl tt.

Definition renders (t : unit) (name : string) (p : page unit unit)
  : list string * option string := (["<html>"], None).

Definition blankSite : Site unit unit :=
  mkSite "example.com" "Example" "pages/*.tmpl" ["base.tmpl"] ∅.

Definition indexPage : page unit unit :=
  mkPage "Example" zeroDate "/index" None "" (Some tt).

Definition helloPage : page unit unit :=
  mkPage "Example" (mkDate 2014 5) "/2014/05/hello" None "" (Some tt).

Definition redirectPage (uri redirectURI : string) : page unit unit :=
  mkPage "Example" zeroDate uri None redirectURI None.

Definition blogSite : Site unit unit :=
  setPages blankSite (<["/2014/05/hello" := helloPage]> (<["/index" := indexPage]> ∅)).

Definition draftGlob (pattern : string) : list string * option error :=
  (["pages/index.tmpl"; "pages/drafts/x.tmpl"; "pages/about.tmpl"], None).

(** A template engine that rejects the page template [hello.tmpl]. *)
Definition compilesButHello (name : string) (funcs : FuncMap) (tmpls : list string)
  : unit + string :=
  if bool_decide (last tmpls = Some "pages/2014/05/hello.tmpl")
  then inr "template: hello.tmpl: unexpected EOF"
  else inl tt.

Definition legacyCompiles (tmpls : list string) : unit + string := inl tt.

Definition legacyRenders (t : unit) (name : string) (p : Legacy.page unit unit)
  : list string * option string := (["<html>"], None).

Definition legacyIndexPage : Legacy.page unit unit :=
  Legacy.mkPage "Example" zeroDate "/index" true None (Some tt).

Definition legacyHelloPage : Legacy.page unit unit :=
  Legacy.mkPage "Example" (mkDate 2014 5) "/2014/05/hello" true None (Some tt).

Definition legacyBlogSite : LegacySite.Site unit unit :=
  LegacySite.mkSite "example.com" "Example" "pages/*.tmpl" ["base.tmpl"]
    (<["/2014/05/hello" := legacyHelloPage]> (<["/index" := legacyIndexPage]> ∅)).

(** * Properties *)

(** ** Strings *)

Lemma append_cons (c : ascii) (s t : string) :
  String c s ++ t = String c (s ++ t).
Proof. reflexivity. Qed.

Lemma append_nil (t : string) : "" ++ t = t.
Proof. reflexivity. Qed.

Lemma length_append (s t : string) :
  String.length (s ++ t) = (String.length s + String.length t)%nat.
Proof.
  induction s as [|c s IH]; [reflexivity|].
  rewrite append_cons. cbn [String.length]. now rewrite IH.
Qed.

Lemma substring_zero_zero (s : string) : substring 0 0 s = "".
Proof. destruct s; reflexivity. Qed.

Lemma substring_whole (s : string) : substring 0 (String.length s) s = s.
Proof.
  induction s as [|c s IH]; [reflexivity|].
  cbn [String.length substring]. now rewrite IH.
Qed.

Lemma substring_append_left (s t : string) :
  substring 0 (String.length s) (s ++ t) = s.
Proof.
  induction s as [|c s IH].
  - apply substring_zero_zero.
  - rewrite append_cons. cbn [String.length substring]. now rewrite IH.
Qed.

Lemma substring_append_right (s t : string) :
  substring (String.length s) (String.length t) (s ++ t) = t.
Proof.
  induction s as [|c s IH].
  - apply substring_whole.
  - rewrite append_cons. cbn [String.length substring]. exact IH.
Qed.

Lemma HasSuffix_append (s suffix : string) :
  strings.HasSuffix (s ++ suffix) suffix = true.
Proof.
  unfold strings.HasSuffix. rewrite length_append.
  replace (String.length s + String.length suffix - String.length suffix)%nat
    with (String.length s) by lia.
  rewrite substring_append_right, String.eqb_refl, andb_true_r.
  apply Nat.leb_le. lia.
Qed.

(** Trimming a suffix that was appended gives the string back. *)
Lemma TrimSuffix_append (s suffix : string) :
  strings.TrimSuffix (s ++ suffix) suffix = s.
Proof.
  unfold strings.TrimSuffix. rewrite HasSuffix_append, length_append.
  replace (String.length s + String.length suffix - String.length suffix)%nat
    with (String.length s) by lia.
  apply substring_append_left.
Qed.

Lemma HasPrefix_slash (c : ascii) (s : string) :
  strings.HasPrefix (String c s) "/" = Ascii.eqb c "/".
Proof.
  unfold strings.HasPrefix. cbn [String.prefix].
  destruct (ascii_dec "/" c) as [<-|Hne].
  - now destruct s.
  - symmetry. apply Ascii.eqb_neq. congruence.
Qed.

Lemma Contains_slash_cons (c : ascii) (s : string) :
  strings.Contains (String c s) "/" = Ascii.eqb c "/" || strings.Contains s "/".
Proof. cbn [strings.Contains]. now rewrite HasPrefix_slash. Qed.

(** A slash-free field in front of a slash is the first field of the split. *)
Lemma Split_field (field rest : string) :
  strings.Contains field "/" = false ->
  strings.Split (field ++ "/" ++ rest) "/" = field :: strings.Split rest "/".
Proof.
  unfold strings.Split. induction field as [|c field IH]; intros Hfree.
  - rewrite append_nil, append_cons, append_nil.
    cbn [strings.splitFrom]. now rewrite HasPrefix_slash.
  - rewrite Contains_slash_cons in Hfree.
    apply orb_false_iff in Hfree as [Hc Hfield].
    rewrite append_cons.
    cbn [strings.splitFrom]. rewrite HasPrefix_slash, Hc, (IH Hfield).
    reflexivity.
Qed.

(** A slash-free string is the only field of its split. *)
Lemma Split_last (field : string) :
  strings.Contains field "/" = false ->
  strings.Split field "/" = [field].
Proof.
  unfold strings.Split. induction field as [|c field IH]; intros Hfree.
  - reflexivity.
  - rewrite Contains_slash_cons in Hfree.
    apply orb_false_iff in Hfree as [Hc Hfield].
    cbn [strings.splitFrom]. rewrite HasPrefix_slash, Hc, (IH Hfield).
    reflexivity.
Qed.

Lemma Contains_slash_append (s t : string) :
  strings.Contains (s ++ t) "/" = strings.Contains s "/" || strings.Contains t "/".
Proof.
  induction s as [|c s IH].
  - reflexivity.
  - rewrite append_cons.
    now rewrite !Contains_slash_cons, IH, orb_assoc.
Qed.

(** ** [strconv.ParseInt] in base 10 reads the decimal numerals *)

Lemma isDecimalDigit_digitVal (c : ascii) :
  isDecimalDigit c = true ->
  strconv.digitVal c = Some (strconv.byteOf c - 48)
  /\ 0 <= strconv.byteOf c - 48 < 10.
Proof.
  unfold isDecimalDigit, strconv.digitVal. cbv zeta.
  intros H. rewrite H. split; [reflexivity | lia].
Qed.

Lemma not_isDecimalDigit_digitVal (c : ascii) :
  isDecimalDigit c = false ->
  match strconv.digitVal c with
  | Some v => 10 <= v
  | None => True
  end.
Proof.
  unfold isDecimalDigit, strconv.digitVal. cbv zeta.
  intros H. rewrite H.
  repeat match goal with |- context [if ?b then _ else _] => destruct b eqn:? end;
    try exact I; lia.
Qed.

Lemma digitsValue_ge (s : string) :
  forall n v, 0 <= n -> digitsValue n s = Some v -> n <= v.
Proof.
  induction s as [|c s IH]; intros n v Hn; cbn [digitsValue].
  - intros [= <-]. lia.
  - destruct (isDecimalDigit c) eqn:Hc; [|discriminate].
    destruct (isDecimalDigit_digitVal c Hc) as [_ Hd].
    intros Hv. apply IH in Hv; lia.
Qed.

Lemma cutoff_base10 : strconv.maxUint64 / 10 + 1 = 1844674407370955162.
Proof. reflexivity. Qed.

(** The digit loop against the value of the numeral: the value when it
    is at most [maxVal], a range error when it is larger, and a syntax
    or range error when some byte is not a decimal digit. *)
Lemma parseDigits_decimal (maxVal : Z) (s : string) :
  maxVal <= strconv.maxUint64 ->
  forall n, 0 <= n <= maxVal ->
  match digitsValue n s with
  | Some v =>
      if v <=? maxVal
      then strconv.parseDigits 10 maxVal n s = (v, None)
      else strconv.parseDigits 10 maxVal n s
           = (strconv.maxUint64, Some strconv.ErrRange)
  | None =>
      strconv.parseDigits 10 maxVal n s = (0, Some strconv.ErrSyntax)
      \/ strconv.parseDigits 10 maxVal n s
         = (strconv.maxUint64, Some strconv.ErrRange)
  end.
Proof.
  intros Hmax. induction s as [|c s IH]; intros n Hn;
    cbn [digitsValue strconv.parseDigits].
  - destruct (Z.leb_spec n maxVal); [reflexivity | lia].
  - destruct (isDecimalDigit c) eqn:Hc.
    + destruct (isDecimalDigit_digitVal c Hc) as [-> Hd].
      set (d := strconv.byteOf c - 48) in *.
      destruct (Z.leb_spec 10 d); [lia|].
      rewrite cutoff_base10. cbv zeta.
      assert (Hover : forall v, 10 * n + d <= v -> maxVal < 10 * n + d ->
                                (v <=? maxVal) = false)
        by (intros v ? ?; apply Z.leb_gt; lia).
      unfold strconv.maxUint64 in Hmax.
      destruct (Z.leb_spec 1844674407370955162 n) as [Hcut|Hcut].
      { destruct (digitsValue (10 * n + d) s) as [v|] eqn:Hv; [|now right].
        apply digitsValue_ge in Hv; [|lia]. rewrite Hover by lia. reflexivity. }
      destruct (Z.lt_ge_cases (n * 10 + d) (2 ^ 64)) as [Hfit|Hwrap].
      * rewrite (Z.mod_small (n * 10 + d)) by lia.
        destruct (Z.ltb_spec (n * 10 + d) (n * 10)); [lia|].
        rewrite orb_false_l.
        destruct (Z.ltb_spec maxVal (n * 10 + d)) as [Hbig|Hsmall].
        { destruct (digitsValue (10 * n + d) s) as [v|] eqn:Hv; [|now right].
          apply digitsValue_ge in Hv; [|lia]. rewrite Hover by lia. reflexivity. }
        replace (10 * n + d) with (n * 10 + d) by lia.
        apply IH. lia.
      * assert (Hmod : (n * 10 + d) mod 2 ^ 64 = n * 10 + d - 2 ^ 64).
        { symmetry. apply (Z.mod_unique_pos _ _ 1); lia. }
        rewrite Hmod.
        destruct (Z.ltb_spec (n * 10 + d - 2 ^ 64) (n * 10)); [|lia].
        rewrite orb_true_l.
        destruct (digitsValue (10 * n + d) s) as [v|] eqn:Hv; [|now right].
        apply digitsValue_ge in Hv; [|lia]. rewrite Hover by lia. reflexivity.
    + pose proof (not_isDecimalDigit_digitVal c Hc) as Hd.
      destruct (strconv.digitVal c) as [v|]; [|now left].
      destruct (Z.leb_spec 10 v); [now left | lia].
Qed.

Lemma ParseUint_decimal (a : arch) (s : string) :
  match unsignedDecimal s with
  | Some v =>
      0 <= v /\
      if v <=? 2 ^ strconv.IntSize a - 1
      then strconv.ParseUint a s 10 0 = (v, None)
      else strconv.ParseUint a s 10 0 = (strconv.maxUint64, Some strconv.ErrRange)
  | None =>
      strconv.ParseUint a s 10 0 = (0, Some strconv.ErrSyntax)
      \/ strconv.ParseUint a s 10 0 = (strconv.maxUint64, Some strconv.ErrRange)
  end.
Proof.
  destruct s as [|c s]; [now left|].
  unfold unsignedDecimal, strconv.ParseUint.
  change (0 =? 0) with true. cbv iota.
  change ((String.length (String c s) <? 1)%nat) with false.
  change ((2 <=? 10) && (10 <=? 36)) with true. cbv iota.
  assert (Hmax : 2 ^ strconv.IntSize a - 1 <= strconv.maxUint64)
    by (destruct a; unfold strconv.maxUint64; cbn; lia).
  assert (Hpos : 0 <= 0 <= 2 ^ strconv.IntSize a - 1) by (destruct a; cbn; lia).
  pose proof (parseDigits_decimal _ (String c s) Hmax 0 Hpos) as H.
  destruct (digitsValue 0 (String c s)) as [v|] eqn:Hv; [|exact H].
  split; [|exact H]. now apply digitsValue_ge in Hv.
Qed.

(** [ParseInt(s, 10, 0)] returns the value of the decimal numeral [s]
    when that value fits an [int], and an error in every other case. *)
Lemma ParseInt_decimal (a : arch) (s : string) :
  match decimal s with
  | Some v =>
      if (- 2 ^ (strconv.IntSize a - 1) <=? v) && (v <? 2 ^ (strconv.IntSize a - 1))
      then strconv.ParseInt a s 10 0 = (v, None)
      else notNil (snd (strconv.ParseInt a s 10 0)) = true
  | None => notNil (snd (strconv.ParseInt a s 10 0)) = true
  end.
Proof.
  destruct s as [|c0 rest]; [reflexivity|].
  unfold decimal, strconv.ParseInt. cbv zeta.
  change (0 =? 0) with true. cbv iota.
  assert (Hsz : 2 ^ (strconv.IntSize a - 1) * 2 = 2 ^ strconv.IntSize a
                /\ 0 < 2 ^ (strconv.IntSize a - 1)
                /\ 2 ^ strconv.IntSize a - 1 <= strconv.maxUint64)
    by (destruct a; unfold strconv.maxUint64; cbn; lia).
  set (cutoff := 2 ^ (strconv.IntSize a - 1)) in *.
  set (top := 2 ^ strconv.IntSize a) in *.
  unfold strconv.maxUint64 in Hsz.
  assert (H64 : 2 ^ 64 = 18446744073709551616) by reflexivity.
  destruct (Ascii.eqb c0 "+") eqn:Hplus; [|destruct (Ascii.eqb c0 "-") eqn:Hminus].
  - assert (Ascii.eqb c0 "-" = false) as ->
        by (apply Ascii.eqb_eq in Hplus; now subst).
    cbn [orb negb andb].
    pose proof (ParseUint_decimal a rest) as H. fold top in H.
    destruct (unsignedDecimal rest) as [v|].
    + destruct H as [Hv H]. destruct (Z.leb_spec v (top - 1)); rewrite H.
      * destruct (Z.leb_spec cutoff v), (Z.leb_spec (- cutoff) v),
          (Z.ltb_spec v cutoff); try lia; reflexivity.
      * unfold strconv.maxUint64.
        destruct (Z.leb_spec cutoff (2 ^ 64 - 1)), (Z.leb_spec (- cutoff) v),
          (Z.ltb_spec v cutoff); try lia; reflexivity.
    + destruct H as [-> | ->]; [reflexivity|]. unfold strconv.maxUint64.
      destruct (Z.leb_spec cutoff (2 ^ 64 - 1)); [reflexivity | lia].
  - cbn [orb negb andb].
    pose proof (ParseUint_decimal a rest) as H. fold top in H.
    destruct (unsignedDecimal rest) as [v|]; cbn [fmap option_fmap option_map].
    + destruct H as [Hv H]. destruct (Z.leb_spec v (top - 1)); rewrite H.
      * destruct (Z.ltb_spec cutoff v), (Z.leb_spec (- cutoff) (- v)),
          (Z.ltb_spec (- v) cutoff); try lia; reflexivity.
      * unfold strconv.maxUint64.
        destruct (Z.ltb_spec cutoff (2 ^ 64 - 1)), (Z.leb_spec (- cutoff) (- v)),
          (Z.ltb_spec (- v) cutoff); try lia; reflexivity.
    + destruct H as [-> | ->]; [reflexivity|]. unfold strconv.maxUint64.
      destruct (Z.ltb_spec cutoff (2 ^ 64 - 1)); [reflexivity | lia].
  - cbn [orb negb andb].
    pose proof (ParseUint_decimal a (String c0 rest)) as H. fold top in H.
    destruct (unsignedDecimal (String c0 rest)) as [v|].
    + destruct H as [Hv H]. destruct (Z.leb_spec v (top - 1)); rewrite H.
      * destruct (Z.leb_spec cutoff v), (Z.leb_spec (- cutoff) v),
          (Z.ltb_spec v cutoff); try lia; reflexivity.
      * unfold strconv.maxUint64.
        destruct (Z.leb_spec cutoff (2 ^ 64 - 1)), (Z.leb_spec (- cutoff) v),
          (Z.ltb_spec v cutoff); try lia; reflexivity.
    + destruct H as [-> | ->]; [reflexivity|]. unfold strconv.maxUint64.
      destruct (Z.leb_spec cutoff (2 ^ 64 - 1)); [reflexivity | lia].
Qed.

(** ** Dates *)

(** The two calls of [ParseInt] in [getDate], read through the decimal
    numerals. *)
Lemma getDate_decimal (a : arch) (y m : string) :
  getDate a y m =
  match decimal y with
  | None => (zeroDate, Some (ErrBadYear y))
  | Some vy =>
      if (vy <=? 1900) || (99999 <=? vy) then (zeroDate, Some (ErrBadYear y))
      else
        match decimal m with
        | None => (zeroDate, Some (ErrBadMonth m))
        | Some vm =>
            if (vm <? 1) || (12 <? vm) then (zeroDate, Some (ErrBadMonth m))
            else (mkDate vy vm, None)
        end
  end.
Proof.
  assert (Hsz : 2 ^ (strconv.IntSize a - 1) >= 2 ^ 31) by (destruct a; cbn; lia).
  assert (H31 : 2 ^ 31 = 2147483648) by reflexivity.
  set (cutoff := 2 ^ (strconv.IntSize a - 1)) in *.
  assert (Hrange : forall s,
    match decimal s with
    | Some v =>
        if (- cutoff <=? v) && (v <? cutoff)
        then strconv.ParseInt a s 10 0 = (v, None)
        else exists r e, strconv.ParseInt a s 10 0 = (r, Some e)
    | None => exists r e, strconv.ParseInt a s 10 0 = (r, Some e)
    end).
  { intros s. pose proof (ParseInt_decimal a s) as H. fold cutoff in H.
    destruct (strconv.ParseInt a s 10 0) as [r [e|]];
      destruct (decimal s) as [v|];
      try destruct ((- cutoff <=? v) && (v <? cutoff));
      try discriminate; eauto. }
  unfold getDate.
  pose proof (Hrange y) as Hy. destruct (decimal y) as [vy|].
  - destruct (Z.leb_spec (- cutoff) vy), (Z.ltb_spec vy cutoff);
      cbn [andb] in Hy;
      try (destruct Hy as (r & e & ->); cbn [notNil orb];
           destruct (Z.leb_spec vy 1900), (Z.leb_spec 99999 vy);
           try lia; reflexivity).
    rewrite Hy. cbn [notNil orb].
    destruct (Z.leb_spec vy 1900), (Z.leb_spec 99999 vy); cbn [orb];
      try reflexivity.
    pose proof (Hrange m) as Hm. destruct (decimal m) as [vm|].
    + destruct (Z.leb_spec (- cutoff) vm), (Z.ltb_spec vm cutoff);
        cbn [andb] in Hm;
        try (destruct Hm as (r & e & ->); cbn [notNil orb];
             destruct (Z.ltb_spec vm 1), (Z.ltb_spec 12 vm);
             try lia; reflexivity).
      rewrite Hm. reflexivity.
    + destruct Hm as (r & e & ->). reflexivity.
  - destruct Hy as (r & e & ->). reflexivity.
Qed.

(** C6.  [getDate(y, m)] fails with "bad year" exactly when [y] is not a
    decimal integer or its value is at most 1900 or at least 99999; once
    the year is accepted it fails with "bad month" exactly when [m] is not
    a decimal integer or its value is outside 1..12; and with both
    accepted it returns the date of the two values and no error. *)
Theorem getDate_bad_year_bad_month (a : arch) (y m : string) :
  (snd (getDate a y m) = Some (ErrBadYear y) <->
   decimal y = None
   \/ exists vy, decimal y = Some vy /\ (vy <= 1900 \/ 99999 <= vy))
  /\ (forall vy, decimal y = Some vy -> 1900 < vy < 99999 ->
      (snd (getDate a y m) = Some (ErrBadMonth m) <->
       decimal m = None
       \/ exists vm, decimal m = Some vm /\ (vm < 1 \/ 12 < vm))
      /\ (forall vm, decimal m = Some vm -> 1 <= vm <= 12 ->
          getDate a y m = (mkDate vy vm, None))).
Proof.
  rewrite getDate_decimal. split.
  - destruct (decimal y) as [vy|]; [|now split; [left|]].
    destruct (Z.leb_spec vy 1900), (Z.leb_spec 99999 vy); cbn [orb snd];
      try (split; [intros _; right; exists vy; split; [reflexivity | lia]
                  | reflexivity]).
    split.
    + destruct (decimal m) as [vm|]; [|discriminate].
      destruct ((vm <? 1) || (12 <? vm)); discriminate.
    + intros [[=] | (v & [= <-] & Hv)]. lia.
  - intros vy -> Hvy.
    destruct (Z.leb_spec vy 1900), (Z.leb_spec 99999 vy); try lia.
    cbn [orb]. split.
    + destruct (decimal m) as [vm|]; [|now split; [left|]].
      destruct (Z.ltb_spec vm 1), (Z.ltb_spec 12 vm); cbn [orb snd];
        try (split; [intros _; right; exists vm; split; [reflexivity | lia]
                    | reflexivity]).
      split; [discriminate|].
      intros [[=] | (v & [= <-] & Hv)]. lia.
    + intros vm -> Hvm.
      destruct (Z.ltb_spec vm 1), (Z.ltb_spec 12 vm); try lia. reflexivity.
Qed.

Lemma before_irreflexive (d : date) : before d d = false.
Proof.
  unfold before. now rewrite Z.ltb_irrefl, Z.eqb_refl, Z.ltb_irrefl.
Qed.

Lemma before_transitive (d1 d2 d3 : date) :
  before d1 d2 = true -> before d2 d3 = true -> before d1 d3 = true.
Proof.
  unfold before.
  destruct (Z.ltb_spec (Year d1) (Year d2)), (Z.eqb_spec (Year d1) (Year d2)),
    (Z.ltb_spec (Year d2) (Year d3)), (Z.eqb_spec (Year d2) (Year d3)),
    (Z.ltb_spec (Year d1) (Year d3)), (Z.eqb_spec (Year d1) (Year d3));
    try discriminate; try lia; try reflexivity.
Qed.

(** C8.  [before] is the strict lexicographic order on (Year, Month);
    2020-03 is before 2020-05, 2019-12 is before 2020-01, and the zero
    date is before every date of a positive year. *)
Theorem before_lexicographic :
  (forall d other : date,
     before d other = true <->
     Year d < Year other \/ (Year d = Year other /\ Month d < Month other))
  /\ before (mkDate 2020 3) (mkDate 2020 5) = true
  /\ before (mkDate 2019 12) (mkDate 2020 1) = true
  /\ (forall d : date, 0 < Year d -> before zeroDate d = true).
Proof.
  assert (Hlex : forall d other : date,
     before d other = true <->
     Year d < Year other \/ (Year d = Year other /\ Month d < Month other)).
  { intros d other. unfold before.
    destruct (Z.ltb_spec (Year d) (Year other)); [intuition lia|].
    destruct (Z.eqb_spec (Year d) (Year other)).
    - rewrite Z.ltb_lt. intuition lia.
    - split; [discriminate | lia]. }
  repeat split; try apply Hlex; try reflexivity.
  intros d Hpos. apply Hlex. left. exact Hpos.
Qed.

(** ** Paths *)

Lemma isDecimalDigit_not_slash (c : ascii) :
  isDecimalDigit c = true -> Ascii.eqb c "/" = false.
Proof.
  intros H. destruct (Ascii.eqb_spec c "/") as [->|]; [|reflexivity].
  discriminate H.
Qed.

Lemma digitsValue_no_slash (s : string) :
  forall n v, digitsValue n s = Some v -> strings.Contains s "/" = false.
Proof.
  induction s as [|c s IH]; intros n v; cbn [digitsValue].
  - reflexivity.
  - destruct (isDecimalDigit c) eqn:Hc; [|discriminate].
    intros Hv. rewrite Contains_slash_cons, (isDecimalDigit_not_slash c Hc).
    exact (IH _ _ Hv).
Qed.

(** A decimal numeral holds no slash. *)
Lemma decimal_no_slash (s : string) (v : Z) :
  decimal s = Some v -> strings.Contains s "/" = false.
Proof.
  destruct s as [|c rest]; [discriminate|].
  assert (Hunsigned : forall t w, unsignedDecimal t = Some w ->
                                  strings.Contains t "/" = false).
  { intros [|d t] w; [discriminate|]. apply digitsValue_no_slash. }
  unfold decimal.
  destruct (Ascii.eqb_spec c "+") as [->|_]; [|destruct (Ascii.eqb_spec c "-") as [->|_]].
  - intros H. rewrite Contains_slash_cons. exact (Hunsigned _ _ H).
  - destruct (unsignedDecimal rest) as [w|] eqn:H; [|discriminate].
    intros _. rewrite Contains_slash_cons. exact (Hunsigned _ _ H).
  - apply Hunsigned.
Qed.

(** The four fields of a dated path. *)
Lemma Split_dated (dir y m file : string) :
  strings.Contains dir "/" = false ->
  strings.Contains y "/" = false ->
  strings.Contains m "/" = false ->
  strings.Contains file "/" = false ->
  strings.Split (dir ++ "/" ++ y ++ "/" ++ m ++ "/" ++ file) "/"
  = [dir; y; m; file].
Proof.
  intros Hdir Hy Hm Hfile.
  now rewrite (Split_field dir), (Split_field y), (Split_field m), (Split_last file).
Qed.

(** What [parsePath] does on [dir/y/m/name.tmpl]: the URI starts at the
    year, the fields are kept as they are written. *)
Lemma parsePath_dated_fields (a : arch) (dir y m name : string) :
  strings.Contains dir "/" = false ->
  strings.Contains y "/" = false ->
  strings.Contains m "/" = false ->
  strings.Contains name "/" = false ->
  parsePath a (dir ++ "/" ++ y ++ "/" ++ m ++ "/" ++ name ++ ".tmpl")
  = let '(d, err) := getDate a y m in
    ("/" ++ y ++ "/" ++ m ++ "/" ++ name, d, err).
Proof.
  intros Hdir Hy Hm Hname. unfold parsePath.
  rewrite Split_dated; try assumption.
  - cbn [length Nat.eqb nth strings.Join]. rewrite TrimSuffix_append.
    destruct (getDate a y m) as [d [e|]]; reflexivity.
  - now rewrite Contains_slash_append, Hname.
Qed.

(** C1, as the code has it.  For [dir/y/m/name.tmpl] with slash-free
    [dir] and [name], [y] a decimal numeral of value [vy], 1900 < vy <
    99999, and [m] one of value [vm], 1 <= vm <= 12, [parsePath] returns
    the URI [/y/m/name] (the leading directory left out, [.tmpl]
    stripped), the date [vy]-[vm] and no error. *)
Theorem parsePath_dated (a : arch) (dir y m name : string) (vy vm : Z) :
  strings.Contains dir "/" = false ->
  strings.Contains name "/" = false ->
  decimal y = Some vy -> 1900 < vy < 99999 ->
  decimal m = Some vm -> 1 <= vm <= 12 ->
  parsePath a (dir ++ "/" ++ y ++ "/" ++ m ++ "/" ++ name ++ ".tmpl")
  = ("/" ++ y ++ "/" ++ m ++ "/" ++ name, mkDate vy vm, None).
Proof.
  intros Hdir Hname Hy Hvy Hm Hvm.
  rewrite parsePath_dated_fields;
    eauto using decimal_no_slash.
  rewrite getDate_decimal, Hy, Hm.
  destruct (Z.leb_spec vy 1900), (Z.leb_spec 99999 vy),
    (Z.ltb_spec vm 1), (Z.ltb_spec 12 vm); try lia.
  reflexivity.
Qed.

Lemma parsePath_dated_witness :
  parsePath Arch64 "pages/2014/05/hello.tmpl" = ("/2014/05/hello", mkDate 2014 5, None).
Proof.
  apply (parsePath_dated Arch64 "pages" "2014" "05" "hello" 2014 5);
    first [reflexivity | lia].
Defined.

(** C1 as it is worded (the URI [/dir/y/m/name]) fails at
    [pages/2014/05/hello.tmpl]. *)
Lemma parsePath_dated_keeps_no_directory :
  ~ (forall (a : arch) (dir y m name : string) (vy vm : Z),
       strings.Contains dir "/" = false ->
       strings.Contains name "/" = false ->
       decimal y = Some vy -> 1900 < vy < 99999 ->
       decimal m = Some vm -> 1 <= vm <= 12 ->
       parsePath a (dir ++ "/" ++ y ++ "/" ++ m ++ "/" ++ name ++ ".tmpl")
       = ("/" ++ dir ++ "/" ++ y ++ "/" ++ m ++ "/" ++ name, mkDate vy vm, None)).
Proof.
  intros H.
  specialize (H Arch64 "pages" "2014" "05" "hello" 2014 5).
  assert (Hrun : parsePath Arch64 "pages/2014/05/hello.tmpl"
                 = ("/2014/05/hello", mkDate 2014 5, None)) by reflexivity.
  change ("pages" ++ "/" ++ "2014" ++ "/" ++ "05" ++ "/" ++ "hello" ++ ".tmpl")
    with "pages/2014/05/hello.tmpl" in H.
  rewrite Hrun in H.
  specialize (H eq_refl eq_refl eq_refl ltac:(lia) eq_refl ltac:(lia)).
  discriminate H.
Qed.

Lemma getDate_bad_year_bad_month_witness :
  getDate Arch64 "2014" "05" = (mkDate 2014 5, None).
Proof.
  apply (proj2 (getDate_bad_year_bad_month Arch64 "2014" "05") 2014);
    first [reflexivity | lia].
Defined.

Lemma before_lexicographic_witness : before zeroDate (mkDate 2014 5) = true.
Proof.
  apply (proj2 (proj2 (proj2 before_lexicographic)) (mkDate 2014 5)).
  cbn. lia.
Defined.

(** ** File discovery *)

(** The loop of [getFiles] fills [r] from the left with the kept paths. *)
Lemma keepPath_fold (paths : list string) :
  forall acc pad : list string,
    (length paths <= length pad)%nat ->
    exists pad',
      fold_left keepPath paths ((acc ++ pad)%list, length acc)
      = ((acc ++ withoutLockFiles paths ++ pad')%list,
         (length acc + length (withoutLockFiles paths))%nat).
Proof.
  induction paths as [|p paths IH]; intros acc pad Hlen.
  - exists pad. cbn. f_equal. lia.
  - cbn [fold_left withoutLockFiles List.filter].
    fold (withoutLockFiles paths).
    change (keepPath ((acc ++ pad)%list, length acc) p)
      with (if strings.Contains p ".#"
            then ((acc ++ pad)%list, length acc)
            else (<[length acc := p]> (acc ++ pad)%list, S (length acc))).
    destruct (strings.Contains p ".#"); cbn [negb].
    + apply IH. cbn in Hlen. lia.
    + destruct pad as [|x pad]; [cbn in Hlen; lia|].
      rewrite (insert_app_r_alt acc (x :: pad) (length acc) p) by lia.
      rewrite Nat.sub_diag. cbn [insert list_insert].
      destruct (IH (acc ++ [p])%list pad) as [pad' Hfold];
        [cbn in Hlen; lia|].
      exists pad'. rewrite <- !app_assoc, length_app in Hfold.
      cbn [app length] in Hfold.
      replace (S (length acc)) with (length acc + 1)%nat by lia.
      rewrite Hfold. cbn [length app]. f_equal. lia.
Qed.

(** After a successful expansion: "no pages found" for no match at all,
    and otherwise the kept paths and no error. *)
Lemma filterFiles_globbed (paths : list string) :
  filterFiles (paths, None)
  = match paths with
    | [] => ([], Some ErrNoPagesFound)
    | _ => (withoutLockFiles paths, None)
    end.
Proof.
  destruct paths as [|p paths]; [reflexivity|].
  unfold filterFiles. cbn [length Nat.eqb].
  destruct (keepPath_fold (p :: paths) [] (replicate (length (p :: paths)) ""))
    as [pad' Hfold]; [now rewrite length_replicate|].
  cbn [app length] in Hfold. cbn [length]. rewrite Hfold.
  now rewrite Nat.add_0_l, take_app_length.
Qed.

(** No path of the result of [filterFiles] contains [".#"]. *)
Lemma filterFiles_no_lock_file (globbed : list string * option error) (p : string) :
  In p (fst (filterFiles globbed)) -> strings.Contains p ".#" = false.
Proof.
  destruct globbed as [paths [e|]]; [intros []|].
  rewrite filterFiles_globbed. destruct paths as [|q paths]; [intros []|].
  cbn [fst]. unfold withoutLockFiles. rewrite filter_In.
  intros [_ H]. now apply negb_true_iff in H.
Qed.

(** ** The registry and the request handler *)

Lemma append_nonempty_neq (s t : string) : t <> "" -> s ++ t <> s.
Proof.
  intros Ht H. apply (f_equal String.length) in H.
  rewrite length_append in H. destruct t; [congruence | cbn in H; lia].
Qed.

Section Properties.

Variable Template : Type.
Variable Any : Type.
Variable GOARCH : arch.
Variable IsDevAppServer : bool.
Variable BaseTemplate : string.
Variable Glob : string -> list string * option error.
Variable ParseFiles : string -> FuncMap -> list string -> Template + string.
Variable ExecuteTemplate :
  Template -> string -> page Template Any -> list string * option string.

Implicit Types (s : Site Template Any) (p : page Template Any).

(** [getFiles] never returns a path that contains [".#"]. *)
Lemma getFiles_no_lock_file s (p : string) :
  In p (fst (getFiles Glob s)) -> strings.Contains p ".#" = false.
Proof. apply filterFiles_no_lock_file. Qed.

(** C3.  [ServeHTTP] answers 404 exactly when the raw request URI is
    not the page's URI, byte for byte; so a trailing slash or an
    appended query string gives 404.  The same holds for the handler of
    the older revision. *)
Theorem ServeHTTP_not_found_iff p (r : Request) :
  (status (fst (ServeHTTP BaseTemplate ExecuteTemplate p r)) = Some StatusNotFound
   <-> RequestURI r <> URI p)
  /\ status (fst (ServeHTTP BaseTemplate ExecuteTemplate p
                    (mkRequest (URI p ++ "/")))) = Some StatusNotFound
  /\ (forall query : string,
        status (fst (ServeHTTP BaseTemplate ExecuteTemplate p
                       (mkRequest (URI p ++ "?" ++ query)))) = Some StatusNotFound)
  /\ (forall (exec : Template -> string -> Legacy.page Template Any
                     -> list string * option string)
             (p' : Legacy.page Template Any),
        status (fst (Legacy.ServeHTTP exec p' r)) = Some StatusNotFound
        <-> RequestURI r <> Legacy.URI p').
Proof.
  assert (Hiff : forall r0 : Request,
    status (fst (ServeHTTP BaseTemplate ExecuteTemplate p r0)) = Some StatusNotFound
    <-> RequestURI r0 <> URI p).
  { intros r0. unfold ServeHTTP.
    destruct (String.eqb_spec (URI p) (RequestURI r0)) as [Heq|Hne]; cbn [negb].
    - split; [|congruence].
      destruct (String.eqb (redirectURI p) ""); cbn [negb fst]; [|discriminate].
      destruct (tmpl p) as [t|]; [|discriminate].
      destruct (ExecuteTemplate t BaseTemplate p) as [[|c chunks] [e|]];
        discriminate.
    - split; [congruence | reflexivity]. }
  split; [apply Hiff|]. split; [|split].
  - apply Hiff. cbn. now apply append_nonempty_neq.
  - intros query. apply Hiff. cbn. now apply append_nonempty_neq.
  - intros exec p'. unfold Legacy.ServeHTTP.
    destruct (String.eqb_spec (Legacy.URI p') (RequestURI r)) as [Heq|Hne];
      cbn [negb].
    + split; [|congruence].
      destruct (Legacy.tmpl p') as [t|]; [|discriminate].
      destruct (exec t "base" p') as [[|c chunks] [e|]]; discriminate.
    + split; [congruence | reflexivity].
Qed.


(** C5.  [ChangeURI(oldURI, newURI)] on a registry that holds
    [oldURI] leaves [newURI] bound to the page that was under [oldURI],
    with its [URI] field set to [newURI], and no entry under [oldURI]
    when the two differ; on a registry without [oldURI] it is fatal. *)
Theorem ChangeURI_moves_page s (oldURI newURI : string) :
  (forall p, pages s !! oldURI = Some p ->
   exists s',
     ChangeURI s oldURI newURI = Ok s'
     /\ pages s' !! newURI = Some (setURI p newURI)
     /\ URI (setURI p newURI) = newURI
     /\ (oldURI <> newURI -> pages s' !! oldURI = None))
  /\ (pages s !! oldURI = None ->
      ChangeURI s oldURI newURI = Fatal (FatalNoPage oldURI)).
Proof.
  split.
  - intros p Hp. unfold ChangeURI. rewrite Hp.
    eexists. split; [reflexivity|]. cbn [pages setPages].
    split; [apply lookup_insert_eq|]. split; [reflexivity|].
    intros Hne. rewrite lookup_insert_ne by congruence.
    apply lookup_delete_eq.
  - intros Habsent. unfold ChangeURI. now rewrite Habsent.
Qed.

(** What the three mutators do to the map. *)
Lemma addPage_pages s (uri : string) (d : date) (data : option Any)
      (tmpls : list string) s' :
  addPage IsDevAppServer BaseTemplate ParseFiles s uri d data tmpls = Ok s' ->
  exists t : option Template,
    s' = setPages s (<[uri := mkPage (title s) d uri data "" t]> (pages s))
    /\ (tmpls <> [] -> is_Some t).
Proof.
  unfold addPage. destruct tmpls as [|x tmpls]; cbn [length Nat.ltb Nat.leb].
  - intros [= <-]. now exists None.
  - destruct (ParseFiles BaseTemplate (getFuncs Template Any IsDevAppServer s)
                         (x :: tmpls)) as [t|msg];
      [|discriminate].
    intros [= <-]. exists (Some t). split; [reflexivity | eauto].
Qed.

Lemma ChangeURI_pages s (uri newURI : string) s' :
  ChangeURI s uri newURI = Ok s' ->
  exists p,
    pages s !! uri = Some p
    /\ s' = setPages s (<[newURI := setURI p newURI]> (delete uri (pages s))).
Proof.
  unfold ChangeURI. destruct (pages s !! uri) as [p|]; [|discriminate].
  intros [= <-]. now exists p.
Qed.

Lemma AddRedirect_pages s (uri target : string) s' :
  AddRedirect s uri target = Ok s' ->
  pages s !! uri = None
  /\ s' = setPages s
            (<[uri := mkPage (title s) zeroDate uri None target None]> (pages s)).
Proof.
  unfold AddRedirect. destruct (pages s !! uri) as [p|]; [discriminate|].
  now intros [= <-].
Qed.

(** Inserting a page under its own URI keeps the registry keyed by URI. *)
Lemma keyedByURI_insert (m : gmap string (page Template Any)) (k : string) p :
  URI p = k -> keyedByURI m -> keyedByURI (<[k := p]> m).
Proof.
  intros Hp Hm k' p'. destruct (decide (k = k')) as [<-|Hne].
  - rewrite lookup_insert_eq. now intros [= <-].
  - rewrite lookup_insert_ne by exact Hne. apply Hm.
Qed.

Lemma keyedByURI_delete (m : gmap string (page Template Any)) (k : string) :
  keyedByURI m -> keyedByURI (delete k m).
Proof.
  intros Hm k' p'. destruct (decide (k = k')) as [<-|Hne].
  - now rewrite lookup_delete_eq.
  - rewrite lookup_delete_ne by exact Hne. apply Hm.
Qed.

(** C9.  [addPage], [ChangeURI] and [AddRedirect] each keep the
    registry keyed by URI: whenever every page is stored under its own
    [URI] before the call and the call returns, the same holds after
    it. *)
Theorem mutators_keep_keyedByURI s :
  keyedByURI (pages s) ->
  (forall (uri : string) (d : date) (data : option Any) (tmpls : list string) s',
      addPage IsDevAppServer BaseTemplate ParseFiles s uri d data tmpls = Ok s' ->
      keyedByURI (pages s'))
  /\ (forall (uri newURI : string) s',
        ChangeURI s uri newURI = Ok s' -> keyedByURI (pages s'))
  /\ (forall (uri redirectURI : string) s',
        AddRedirect s uri redirectURI = Ok s' -> keyedByURI (pages s')).
Proof.
  intros Hs. split; [|split].
  - intros uri d data tmpls s' H.
    apply addPage_pages in H as (t & -> & _).
    now apply keyedByURI_insert.
  - intros uri newURI s' H.
    apply ChangeURI_pages in H as (p & _ & ->).
    apply keyedByURI_insert; [reflexivity|]. now apply keyedByURI_delete.
  - intros uri target s' H.
    apply AddRedirect_pages in H as [_ ->].
    now apply keyedByURI_insert.
Qed.

(** C10.  A successful [ChangeURI(oldURI, newURI)] leaves every entry
    under a key other than [oldURI] and [newURI] as it was; when
    [newURI] is a key already and differs from [oldURI], the call still
    succeeds, the page that was under [newURI] is replaced by the moved
    one, and the registry has one entry less. *)
Theorem ChangeURI_frame s (oldURI newURI : string) s' :
  ChangeURI s oldURI newURI = Ok s' ->
  (forall k : string, k <> oldURI -> k <> newURI ->
     pages s' !! k = pages s !! k)
  /\ (forall q, pages s !! newURI = Some q -> oldURI <> newURI ->
      (exists p, pages s !! oldURI = Some p
                 /\ pages s' !! newURI = Some (setURI p newURI))
      /\ size (pages s) = S (size (pages s'))).
Proof.
  intros H. apply ChangeURI_pages in H as (p & Hp & ->). cbn [pages setPages].
  split.
  - intros k Hold Hnew.
    rewrite lookup_insert_ne by congruence.
    now rewrite lookup_delete_ne by congruence.
  - intros q Hq Hne. split.
    + exists p. split; [exact Hp | apply lookup_insert_eq].
    + assert (Hnew : delete oldURI (pages s) !! newURI = Some q)
        by now rewrite lookup_delete_ne.
      rewrite map_size_insert_Some by (rewrite Hnew; eauto).
      rewrite map_size_delete_Some by (rewrite Hp; eauto).
      assert (size (pages s) <> 0%nat); [|lia].
      intros Hzero. apply map_size_empty_inv in Hzero.
      rewrite Hzero, lookup_empty in Hp. discriminate.
Qed.

(** *** Template or redirect target, never both and never neither *)

Lemma addPage_templateXorRedirect s (uri : string) (d : date)
      (data : option Any) (tmpls : list string) s' :
  tmpls <> [] ->
  map_Forall (fun _ => templateXorRedirect) (pages s) ->
  addPage IsDevAppServer BaseTemplate ParseFiles s uri d data tmpls = Ok s' ->
  map_Forall (fun _ => templateXorRedirect) (pages s').
Proof.
  intros Htmpls Hs H. apply addPage_pages in H as (t & -> & Ht).
  cbn [pages setPages]. apply map_Forall_insert_2; [|exact Hs].
  left. split; [exact (Ht Htmpls) | reflexivity].
Qed.

Lemma readPages_templateXorRedirect (filePaths : list string) :
  forall s s' (err : option error),
    map_Forall (fun _ => templateXorRedirect) (pages s) ->
    readPages GOARCH IsDevAppServer BaseTemplate ParseFiles s filePaths
    = Ok (s', err) ->
    map_Forall (fun _ => templateXorRedirect) (pages s').
Proof.
  induction filePaths as [|tmplPath rest IH]; intros s s' err Hs;
    cbn [readPages].
  - now intros [= <- _].
  - destruct (parsePath GOARCH tmplPath) as [[uri d] [e|]].
    + now intros [= <- _].
    + destruct (addPage IsDevAppServer BaseTemplate ParseFiles s uri d None
                        (templates s ++ [tmplPath])%list) as [s1|f|msg] eqn:Hadd;
        cbn; try discriminate.
      apply IH.
      refine (addPage_templateXorRedirect _ _ _ _ _ _ _ Hs Hadd).
      now destruct (templates s).
Qed.

Lemma New_templateXorRedirect (title glob liveDomain : string)
      (tmpls : list string) s :
  New GOARCH IsDevAppServer BaseTemplate Glob ParseFiles
      title glob liveDomain tmpls = Ok s ->
  map_Forall (fun _ => templateXorRedirect) (pages s).
Proof.
  unfold New, read.
  destruct (getFiles Glob (mkSite liveDomain title glob tmpls ∅))
    as [filePaths [e|]]; cbn; [discriminate|].
  destruct (readPages GOARCH IsDevAppServer BaseTemplate ParseFiles
              (setPages (mkSite liveDomain title glob tmpls ∅) ∅) filePaths)
    as [[s1 [e|]]|f|msg] eqn:Hread; cbn; try discriminate.
  intros [= <-].
  apply (readPages_templateXorRedirect _ _ _ _ (map_Forall_empty _) Hread).
Qed.

Lemma mutate_templateXorRedirect s (c : mutation) s' :
  redirectGiven c ->
  map_Forall (fun _ => templateXorRedirect) (pages s) ->
  mutate s c = Ok s' ->
  map_Forall (fun _ => templateXorRedirect) (pages s').
Proof.
  intros Hc Hs. destruct c as [uri newURI | uri target]; cbn [mutate].
  - intros H. apply ChangeURI_pages in H as (p & Hp & ->).
    cbn [pages setPages]. apply map_Forall_insert_2.
    + exact (Hs _ _ Hp).
    + now apply map_Forall_delete.
  - intros H. apply AddRedirect_pages in H as [_ ->].
    cbn [pages setPages]. apply map_Forall_insert_2; [|exact Hs].
    right. split; [reflexivity | exact Hc].
Qed.

(** C7, as the code has it.  After [New] has returned and any sequence
    of [ChangeURI] and [AddRedirect] calls has run to its end, every
    [AddRedirect] of the sequence with a non-empty redirect URI, each
    page of the registry has a compiled template and an empty redirect
    URI, or a non-empty redirect URI and no compiled template. *)
Theorem registry_templateXorRedirect (title glob liveDomain : string)
        (tmpls : list string) s0 (cs : list mutation) s :
  New GOARCH IsDevAppServer BaseTemplate Glob ParseFiles
      title glob liveDomain tmpls = Ok s0 ->
  Forall redirectGiven cs ->
  mutateAll s0 cs = Ok s ->
  forall (k : string) p, pages s !! k = Some p -> templateXorRedirect p.
Proof.
  intros Hnew Hcs Hrun.
  apply New_templateXorRedirect in Hnew.
  revert s0 Hnew Hrun.
  induction Hcs as [|c cs Hc Hcs IH]; intros s0 Hs0; cbn [mutateAll].
  - intros [= <-]. exact Hs0.
  - destruct (mutate s0 c) as [s1|f|msg] eqn:Hstep; cbn; try discriminate.
    apply IH. exact (mutate_templateXorRedirect _ _ _ Hc Hs0 Hstep).
Qed.

End Properties.

(** ** The functions at concrete inputs *)

Example Split_path :
  strings.Split "pages/2014/05/hello.tmpl" "/" = ["pages"; "2014"; "05"; "hello.tmpl"].
Proof. reflexivity. Qed.

Example Split_no_separator : strings.Split "" "/" = [""].
Proof. reflexivity. Qed.

Example TrimSuffix_other_extension :
  strings.TrimSuffix "hello.html" ".tmpl" = "hello.html".
Proof. reflexivity. Qed.

Example ParseInt_sign : strconv.ParseInt Arch32 "+05" 10 0 = (5, None).
Proof. reflexivity. Qed.

Example ParseInt_out_of_range :
  strconv.ParseInt Arch64 "99999999999999999999" 10 0
  = (2 ^ 63 - 1, Some strconv.ErrRange).
Proof. reflexivity. Qed.

Example ParseInt_not_a_number :
  strconv.ParseInt Arch64 "20x4" 10 0 = (0, Some strconv.ErrSyntax).
Proof. reflexivity. Qed.

Example getDate_year_1900 :
  getDate Arch64 "1900" "01" = (zeroDate, Some (ErrBadYear "1900")).
Proof. reflexivity. Qed.

Example getDate_month_13 :
  getDate Arch64 "2014" "13" = (zeroDate, Some (ErrBadMonth "13")).
Proof. reflexivity. Qed.

Example parsePath_undated :
  parsePath Arch64 "pages/Foo.tmpl" = ("/Foo", zeroDate, None).
Proof. reflexivity. Qed.

Example parsePath_five_fields :
  parsePath Arch64 "a/b/c/d/e.tmpl"
  = ("", zeroDate, Some (ErrBadTemplatePath "a/b/c/d/e.tmpl")).
Proof. reflexivity. Qed.

Example parsePath_bad_month_keeps_uri :
  parsePath Arch64 "pages/2014/13/hello.tmpl"
  = ("/2014/13/hello", zeroDate, Some (ErrBadMonth "13")).
Proof. reflexivity. Qed.

Example filterFiles_keeps_order :
  filterFiles (["pages/b.tmpl"; "pages/.#b.tmpl"; "pages/a.tmpl"], None)
  = (["pages/b.tmpl"; "pages/a.tmpl"], None).
Proof. reflexivity. Qed.

Example filterFiles_no_match : filterFiles ([], None) = ([], Some ErrNoPagesFound).
Proof. reflexivity. Qed.

Example ServeHTTP_renders :
  ServeHTTP "base" renders indexPage (mkRequest "/index")
  = ([WriteBody "<html>"], Returns).
Proof. reflexivity. Qed.

Example ServeHTTP_query_string :
  ServeHTTP "base" renders indexPage (mkRequest "/index?x=1") = ([NotFound], Returns).
Proof. reflexivity. Qed.

Example ServeHTTP_nil_template :
  ServeHTTP "base" renders (redirectPage "/x" "") (mkRequest "/x") = ([], Panics).
Proof. reflexivity. Qed.

(** ** The statements at concrete sites *)

Lemma New_blogSite :
  New Arch64 false "base" blogGlob compiles
      "Example" "pages/*.tmpl" "example.com" ["base.tmpl"] = Ok blogSite.
Proof. reflexivity. Qed.

(** C2.  [getFiles] does drop every path that contains [".#"], but it
    tests for "no pages found" before it drops them: at a glob that
    expands to the one lock file [pages/.#index.tmpl] it returns no path
    and no error, and [New] returns a site with an empty registry instead
    of being fatal. *)
Theorem getFiles_only_lock_files :
  getFiles lockFileGlob blankSite = ([], None)
  /\ New Arch64 false "base" lockFileGlob compiles
         "Example" "pages/*.tmpl" "example.com" ["base.tmpl"] = Ok blankSite.
Proof. split; reflexivity. Qed.


Lemma ChangeURI_moves_page_witness :
  exists s',
    ChangeURI blogSite "/index" "/" = Ok s'
    /\ pages s' !! "/" = Some (setURI indexPage "/")
    /\ URI (setURI indexPage "/") = "/"
    /\ ("/index" <> "/" -> pages s' !! "/index" = None).
Proof.
  apply (proj1 (ChangeURI_moves_page unit unit blogSite "/index" "/")).
  reflexivity.
Defined.

Lemma mutators_keep_keyedByURI_witness :
  keyedByURI (pages blankSite)
  /\ keyedByURI
       (pages (setPages blankSite (<["/x" := redirectPage "/x" "/y"]> ∅))).
Proof.
  assert (Hblank : keyedByURI (pages blankSite)) by (intros k p; discriminate).
  split; [exact Hblank|].
  apply (proj2 (proj2 (mutators_keep_keyedByURI unit unit false "base" compiles
                         blankSite Hblank)) "/x" "/y").
  reflexivity.
Defined.

Lemma ChangeURI_frame_witness :
  exists s',
    ChangeURI blogSite "/index" "/2014/05/hello" = Ok s'
    /\ (forall k : string, k <> "/index" -> k <> "/2014/05/hello" ->
          pages s' !! k = pages blogSite !! k)
    /\ (exists p, pages blogSite !! "/index" = Some p
                  /\ pages s' !! "/2014/05/hello" = Some (setURI p "/2014/05/hello"))
    /\ size (pages blogSite) = S (size (pages s')).
Proof.
  eexists. split; [reflexivity|].
  pose proof (ChangeURI_frame unit unit blogSite "/index" "/2014/05/hello" _ eq_refl)
    as [Hframe Hover].
  split; [exact Hframe|].
  apply (Hover helloPage); [reflexivity | discriminate].
Defined.

Lemma registry_templateXorRedirect_witness :
  templateXorRedirect (redirectPage "/x" "/y").
Proof.
  apply (registry_templateXorRedirect unit unit Arch64 false "base" blogGlob compiles
           "Example" "pages/*.tmpl" "example.com" ["base.tmpl"]
           blogSite [DoAddRedirect "/x" "/y"]
           (setPages blogSite (<["/x" := redirectPage "/x" "/y"]> (pages blogSite)))
           ltac:(reflexivity)
           ltac:(constructor; [discriminate | constructor])
           ltac:(reflexivity)
           "/x").
  reflexivity.
Defined.

(** C7 as it is worded fails after [AddRedirect("/x", "")]: the page
    under [/x] has no compiled template and no redirect URI. *)
Lemma AddRedirect_empty_target_neither :
  exists (s : Site unit unit) (p : page unit unit),
    New Arch64 false "base" blogGlob compiles
        "Example" "pages/*.tmpl" "example.com" ["base.tmpl"] = Ok blogSite
    /\ mutateAll blogSite [DoAddRedirect "/x" ""] = Ok s
    /\ pages s !! "/x" = Some p
    /\ tmpl p = None
    /\ redirectURI p = ""
    /\ ~ templateXorRedirect p.
Proof.
  eexists _, _. split; [reflexivity|]. split; [reflexivity|].
  split; [reflexivity|]. split; [reflexivity|]. split; [reflexivity|].
  intros [[[t Ht] _] | [_ Hne]]; [discriminate Ht | now apply Hne].
Qed.

(** * Further properties *)

(** ** Fields of a path *)

Lemma splitFrom_slash_cons (c : ascii) (s : string) :
  strings.splitFrom "/" 0 (String c s)
  = if Ascii.eqb c "/" then "" :: strings.splitFrom "/" 0 s
    else match strings.splitFrom "/" 0 s with
         | field :: rest => String c field :: rest
         | [] => [String c ""]
         end.
Proof. cbn [strings.splitFrom]. now rewrite HasPrefix_slash. Qed.

(** A path has one field more than it has slashes. *)
Lemma length_Split_slash (s : string) :
  length (strings.Split s "/") = S (countByte "/" s).
Proof.
  unfold strings.Split. induction s as [|c s IH]; [reflexivity|].
  rewrite splitFrom_slash_cons. cbn [countByte].
  destruct (Ascii.eqb c "/").
  - cbn [length]. now rewrite IH.
  - destruct (strings.splitFrom "/" 0 s) as [|field rest]; [discriminate IH|].
    exact IH.
Qed.

(** Joining the fields with slashes gives the path back. *)
Lemma Join_Split_slash (s : string) :
  strings.Join (strings.Split s "/") "/" = s.
Proof.
  unfold strings.Split. induction s as [|c s IH]; [reflexivity|].
  rewrite splitFrom_slash_cons.
  pose proof (length_Split_slash s) as Hlen. unfold strings.Split in Hlen.
  destruct (Ascii.eqb_spec c "/") as [->|Hc].
  - destruct (strings.splitFrom "/" 0 s) as [|field rest]; [discriminate Hlen|].
    cbn [strings.Join] in *. now rewrite IH.
  - destruct (strings.splitFrom "/" 0 s) as [|field rest]; [discriminate Hlen|].
    destruct rest as [|field' rest]; cbn [strings.Join] in *.
    + now rewrite IH.
    + rewrite append_cons. now rewrite IH.
Qed.

Lemma getDate_error_kind (a : arch) (y m : string) (e : error) :
  snd (getDate a y m) = Some e -> e = ErrBadYear y \/ e = ErrBadMonth m.
Proof.
  unfold getDate.
  destruct (strconv.ParseInt a y 10 0) as [y64 erry].
  destruct (notNil erry || (y64 <=? 1900) || (99999 <=? y64)).
  - intros [= <-]. now left.
  - destruct (strconv.ParseInt a m 10 0) as [month errm].
    destruct (notNil errm || (month <? 1) || (12 <? month)).
    + intros [= <-]. now right.
    + discriminate.
Qed.

(** X1.  [parsePath] fails with "bad template path" exactly on the paths
    whose number of slashes is neither 1 nor 3, and then returns the empty
    URI and the zero date. *)
Theorem parsePath_bad_template_path (a : arch) (p : string) :
  (snd (parsePath a p) = Some (ErrBadTemplatePath p)
   <-> countByte "/" p <> 1%nat /\ countByte "/" p <> 3%nat)
  /\ (snd (parsePath a p) = Some (ErrBadTemplatePath p) ->
      parsePath a p = ("", zeroDate, Some (ErrBadTemplatePath p))).
Proof.
  unfold parsePath. rewrite length_Split_slash.
  destruct (Nat.eqb_spec (S (countByte "/" p)) 2) as [H2|H2].
  { split; [split|]; cbn [snd]; try discriminate. lia. }
  destruct (Nat.eqb_spec (S (countByte "/" p)) 4) as [H4|H4].
  - set (y := nth 1 (strings.Split p "/") "").
    set (m := nth 2 (strings.Split p "/") "").
    pose proof (getDate_error_kind a y m) as Hkind.
    destruct (getDate a y m) as [d [e|]]; cbn [snd] in *.
    + assert (Some e <> Some (ErrBadTemplatePath p))
        by (intros [= ->]; destruct (Hkind _ eq_refl); discriminate).
      split; [split|]; try tauto. lia.
    + split; [split|]; try discriminate. lia.
  - cbn [snd]. split; [split|]; try reflexivity. lia.
Qed.

(** X2.  An undated path [dir/file], with no slash in [dir] and [file],
    gives the URI [/file] without a trailing [.tmpl], the zero date and no
    error; the directory is not part of the URI, and a file name with
    another extension is kept whole. *)
Theorem parsePath_undated_file (a : arch) (dir file : string) :
  strings.Contains dir "/" = false ->
  strings.Contains file "/" = false ->
  parsePath a (dir ++ "/" ++ file)
  = ("/" ++ strings.TrimSuffix file ".tmpl", zeroDate, None)
  /\ (forall name : string,
        file = name ++ ".tmpl" -> strings.TrimSuffix file ".tmpl" = name)
  /\ (strings.HasSuffix file ".tmpl" = false ->
      strings.TrimSuffix file ".tmpl" = file).
Proof.
  intros Hdir Hfile. split; [|split].
  - unfold parsePath. now rewrite (Split_field dir), (Split_last file).
  - intros name ->. apply TrimSuffix_append.
  - intros Hsuffix. unfold strings.TrimSuffix. now rewrite Hsuffix.
Qed.

Lemma parsePath_undated_file_witness :
  parsePath Arch64 "pages/Foo.tmpl" = ("/Foo", zeroDate, None).
Proof.
  apply (parsePath_undated_file Arch64 "pages" "Foo.tmpl"); reflexivity.
Defined.

(** X3.  On a dated path [dir/y/m/file] the error of [parsePath] is the
    error of [getDate(y, m)]: with a rejected year or month, [parsePath]
    returns that error and the zero date, beside the URI it had built. *)
Theorem parsePath_dated_bad_date (a : arch) (dir y m file : string) (e : error) :
  strings.Contains dir "/" = false ->
  strings.Contains y "/" = false ->
  strings.Contains m "/" = false ->
  strings.Contains file "/" = false ->
  snd (getDate a y m) = Some e ->
  parsePath a (dir ++ "/" ++ y ++ "/" ++ m ++ "/" ++ file)
  = ("/" ++ y ++ "/" ++ m ++ "/" ++ strings.TrimSuffix file ".tmpl",
     zeroDate, Some e)
  /\ (e = ErrBadYear y \/ e = ErrBadMonth m).
Proof.
  intros Hdir Hy Hm Hfile He. split; [|exact (getDate_error_kind a y m e He)].
  unfold parsePath. rewrite Split_dated by assumption.
  cbn [length Nat.eqb nth strings.Join].
  unfold getDate in *.
  destruct (strconv.ParseInt a y 10 0) as [y64 erry].
  destruct (notNil erry || (y64 <=? 1900) || (99999 <=? y64)).
  - cbn [snd] in He. now rewrite He.
  - destruct (strconv.ParseInt a m 10 0) as [month errm].
    destruct (notNil errm || (month <? 1) || (12 <? month)).
    + cbn [snd] in He. now rewrite He.
    + discriminate He.
Qed.

Lemma parsePath_dated_bad_date_witness :
  parsePath Arch64 "pages/1900/01/old.tmpl"
  = ("/1900/01/old", zeroDate, Some (ErrBadYear "1900"))
  /\ (ErrBadYear "1900" = ErrBadYear "1900" \/ ErrBadYear "1900" = ErrBadMonth "01").
Proof.
  apply (parsePath_dated_bad_date Arch64 "pages" "1900" "01" "old.tmpl");
    reflexivity.
Defined.

(** X4.  A date returned by [getDate] without an error has its year
    strictly between 1900 and 99999 and its month in 1..12; with an error
    the date is the zero date and the error names the year or the month
    string. *)
Theorem getDate_result_range (a : arch) (y m : string) :
  match getDate a y m with
  | (d, None) => 1900 < Year d < 99999 /\ 1 <= Month d <= 12
  | (d, Some e) => d = zeroDate /\ (e = ErrBadYear y \/ e = ErrBadMonth m)
  end.
Proof.
  unfold getDate.
  destruct (strconv.ParseInt a y 10 0) as [y64 erry].
  destruct (notNil erry) eqn:Hy; cbn [orb]; [now split; [|left]|].
  destruct (Z.leb_spec y64 1900); cbn [orb]; [now split; [|left]|].
  destruct (Z.leb_spec 99999 y64); cbn [orb]; [now split; [|left]|].
  destruct (strconv.ParseInt a m 10 0) as [month errm].
  destruct (notNil errm) eqn:Hm; cbn [orb]; [now split; [|right]|].
  destruct (Z.ltb_spec month 1); cbn [orb]; [now split; [|right]|].
  destruct (Z.ltb_spec 12 month); cbn [orb]; [now split; [|right]|].
  cbn [Year Month]. lia.
Qed.

(** The range of an accepted date, through the decimal numerals. *)
Lemma getDate_accepted_range (a : arch) (y m : string) (d : date) :
  getDate a y m = (d, None) -> 1900 < Year d < 99999 /\ 1 <= Month d <= 12.
Proof.
  rewrite getDate_decimal.
  destruct (decimal y) as [vy|]; [|discriminate].
  destruct (Z.leb_spec vy 1900), (Z.leb_spec 99999 vy); cbn [orb];
    try discriminate.
  destruct (decimal m) as [vm|]; [|discriminate].
  destruct (Z.ltb_spec vm 1), (Z.ltb_spec 12 vm); cbn [orb]; try discriminate.
  intros [= <-]. cbn [Year Month]. lia.
Qed.

(** X5.  [getDate] and [parsePath] do not depend on the width of [int]:
    they return the same on a 32-bit and on a 64-bit platform. *)
Theorem parsePath_same_on_32_and_64_bit (y m p : string) :
  getDate Arch32 y m = getDate Arch64 y m
  /\ parsePath Arch32 p = parsePath Arch64 p.
Proof.
  assert (Hdate : forall y' m', getDate Arch32 y' m' = getDate Arch64 y' m')
    by (intros y' m'; now rewrite !getDate_decimal).
  split; [apply Hdate|]. unfold parsePath. now rewrite Hdate.
Qed.

(** X23.  Whenever [parsePath] returns no error, the URI starts with a
    slash, and the date is the zero date (a path of two fields) or has its
    year strictly between 1900 and 99999 and its month in 1..12 (a path of
    four fields). *)
Theorem parsePath_result_shape (a : arch) (p uri : string) (d : date) :
  parsePath a p = (uri, d, None) ->
  (exists rest : string, uri = "/" ++ rest)
  /\ ((countByte "/" p = 1%nat /\ d = zeroDate)
      \/ (countByte "/" p = 3%nat
          /\ 1900 < Year d < 99999 /\ 1 <= Month d <= 12)).
Proof.
  unfold parsePath. rewrite length_Split_slash.
  destruct (Nat.eqb_spec (S (countByte "/" p)) 2) as [H2|H2].
  { intros [= <- <-]. split; [eauto|]. left. split; [lia | reflexivity]. }
  destruct (Nat.eqb_spec (S (countByte "/" p)) 4) as [H4|H4]; [|discriminate].
  set (y := nth 1 (strings.Split p "/") "").
  set (m := nth 2 (strings.Split p "/") "").
  pose proof (getDate_accepted_range a y m) as Hrange.
  destruct (getDate a y m) as [d' [e|]]; [discriminate|].
  intros [= <- <-]. split; [eauto|]. right. split; [lia | now apply Hrange].
Qed.

Lemma parsePath_result_shape_witness :
  (exists rest : string, "/2014/05/hello" = "/" ++ rest)
  /\ ((countByte "/" "pages/2014/05/hello.tmpl" = 1%nat /\ mkDate 2014 5 = zeroDate)
      \/ (countByte "/" "pages/2014/05/hello.tmpl" = 3%nat
          /\ 1900 < Year (mkDate 2014 5) < 99999
          /\ 1 <= Month (mkDate 2014 5) <= 12)).
Proof.
  apply (parsePath_result_shape Arch64 "pages/2014/05/hello.tmpl").
  reflexivity.
Defined.

(** X6.  [before] is a strict total order on dates: no date is before
    itself, it is transitive, and of two different dates exactly one is
    before the other. *)
Theorem before_strict_total_order :
  (forall d : date, before d d = false)
  /\ (forall d1 d2 d3 : date,
        before d1 d2 = true -> before d2 d3 = true -> before d1 d3 = true)
  /\ (forall d1 d2 : date, before d1 d2 = true -> before d2 d1 = false)
  /\ (forall d1 d2 : date,
        d1 <> d2 -> before d1 d2 = true \/ before d2 d1 = true).
Proof.
  split; [exact before_irreflexive|]. split; [exact before_transitive|]. split.
  - intros d1 d2 H12. destruct (before d2 d1) eqn:H21; [|reflexivity].
    pose proof (before_transitive _ _ _ H12 H21) as H.
    now rewrite before_irreflexive in H.
  - intros [y1 m1] [y2 m2] Hne. unfold before. cbn [Year Month].
    destruct (Z.ltb_spec y1 y2); [now left|].
    destruct (Z.ltb_spec y2 y1); [now right|].
    assert (y1 = y2) as -> by lia. rewrite Z.eqb_refl.
    destruct (Z.ltb_spec m1 m2); [now left|].
    destruct (Z.ltb_spec m2 m1); [now right|].
    assert (m1 = m2) as -> by lia. congruence.
Qed.

Lemma parsePath_bad_template_path_witness :
  parsePath Arch64 "a/b/c/d/e.tmpl"
  = ("", zeroDate, Some (ErrBadTemplatePath "a/b/c/d/e.tmpl")).
Proof.
  apply (proj2 (parsePath_bad_template_path Arch64 "a/b/c/d/e.tmpl")).
  apply (proj1 (parsePath_bad_template_path Arch64 "a/b/c/d/e.tmpl")).
  split; discriminate.
Defined.

Lemma before_strict_total_order_witness :
  before (mkDate 2020 1) (mkDate 2019 12) = false.
Proof.
  apply (proj1 (proj2 (proj2 before_strict_total_order))
               (mkDate 2019 12) (mkDate 2020 1)).
  reflexivity.
Defined.

(** ** Discovery and construction *)

Section Construction.

Variable Template : Type.
Variable Any : Type.
Variable GOARCH : arch.
Variable IsDevAppServer : bool.
Variable BaseTemplate : string.
Variable Glob : string -> list string * option error.
Variable ParseFiles : string -> FuncMap -> list string -> Template + string.
Variable ExecuteTemplate :
  Template -> string -> page Template Any -> list string * option string.

Implicit Types (s : Site Template Any) (p : page Template Any).

(** X7.  [getFiles] passes an error of [filepath.Glob] on with no path,
    answers "no pages found" to an empty expansion, and otherwise
    returns, without error, the expansion with every path that contains
    [".#"] taken out, the other paths in the order of the expansion. *)
Theorem getFiles_result s :
  getFiles Glob s
  = match Glob (glob s) with
    | (_, Some e) => ([], Some e)
    | (paths, None) =>
        match paths with
        | [] => ([], Some ErrNoPagesFound)
        | _ => (withoutLockFiles paths, None)
        end
    end.
Proof.
  unfold getFiles. destruct (Glob (glob s)) as [paths [e|]]; [reflexivity|].
  apply filterFiles_globbed.
Qed.

Lemma getFuncs_setPages s (m : gmap string (page Template Any)) :
  getFuncs Template Any IsDevAppServer (setPages s m)
  = getFuncs Template Any IsDevAppServer s.
Proof. reflexivity. Qed.

(** One round of the loop of [read] on a path that parses and compiles. *)
Lemma readPages_cons_ok s (path uri : string) (d : date) (t : Template)
      (rest : list string) :
  parsePath GOARCH path = (uri, d, None) ->
  ParseFiles BaseTemplate (getFuncs Template Any IsDevAppServer s)
             (templates s ++ [path])%list = inl t ->
  readPages GOARCH IsDevAppServer BaseTemplate ParseFiles s (path :: rest)
  = readPages GOARCH IsDevAppServer BaseTemplate ParseFiles
      (setPages s (<[uri := mkPage (title s) d uri None "" (Some t)]> (pages s)))
      rest.
Proof.
  intros Hparse Hcompile. cbn [readPages]. rewrite Hparse.
  unfold addPage. rewrite Hcompile.
  now destruct (templates s).
Qed.

(** What a run of the loop of [read] that ends without error has done:
    the configuration is as before, each path parsed and compiled and has
    its URI in the registry, and each page is an old one or the page of
    one of the paths. *)
Lemma readPages_ok (filePaths : list string) :
  forall s s',
    readPages GOARCH IsDevAppServer BaseTemplate ParseFiles s filePaths
    = Ok (s', None) ->
    (liveDomain s' = liveDomain s /\ title s' = title s
     /\ glob s' = glob s /\ templates s' = templates s)
    /\ (forall k, is_Some (pages s !! k) -> is_Some (pages s' !! k))
    /\ (forall path, In path filePaths ->
        exists uri d t,
          parsePath GOARCH path = (uri, d, None)
          /\ ParseFiles BaseTemplate (getFuncs Template Any IsDevAppServer s)
                        (templates s ++ [path])%list = inl t
          /\ is_Some (pages s' !! uri))
    /\ (forall k p, pages s' !! k = Some p ->
        pages s !! k = Some p
        \/ exists path d t,
             In path filePaths
             /\ parsePath GOARCH path = (k, d, None)
             /\ ParseFiles BaseTemplate (getFuncs Template Any IsDevAppServer s)
                           (templates s ++ [path])%list = inl t
             /\ p = mkPage (title s) d k None "" (Some t)).
Proof.
  induction filePaths as [|path rest IH]; intros s s'.
  - cbn [readPages]. intros [= <-].
    repeat split; try tauto. intros path [].
  - destruct (parsePath GOARCH path) as [[uri d] [e|]] eqn:Hparse.
    { cbn [readPages]. rewrite Hparse. discriminate. }
    destruct (ParseFiles BaseTemplate (getFuncs Template Any IsDevAppServer s)
                         (templates s ++ [path])%list) as [t|msg] eqn:Hcompile.
    2:{ cbn [readPages]. rewrite Hparse. unfold addPage. rewrite Hcompile.
        destruct (templates s); discriminate. }
    rewrite (readPages_cons_ok _ _ _ _ _ _ Hparse Hcompile).
    intros Hrest. apply IH in Hrest as (Hcfg & Hmono & Hpaths & Hpages).
    cbn [liveDomain title glob templates pages setPages] in *.
    rewrite getFuncs_setPages in *.
    split; [exact Hcfg|]. split; [|split].
    + intros k Hk. apply Hmono.
      destruct (decide (uri = k)) as [<-|Hne].
      * rewrite lookup_insert_eq. eauto.
      * now rewrite lookup_insert_ne.
    + intros path' [<-|Hin].
      * exists uri, d, t. repeat split; try assumption.
        apply Hmono. rewrite lookup_insert_eq. eauto.
      * apply Hpaths, Hin.
    + intros k p Hp. destruct (Hpages k p Hp) as [Hold|(path' & d' & t' & Hin & H)].
      * destruct (decide (uri = k)) as [<-|Hne].
        -- rewrite lookup_insert_eq in Hold. injection Hold as <-.
           right. exists path, d, t. repeat split; try assumption. now left.
        -- rewrite lookup_insert_ne in Hold by exact Hne. now left.
      * right. exists path', d', t'. split; [now right | exact H].
Qed.

(** [New] returns what the loop of [read] leaves, started from the empty
    registry on the paths of [getFiles]. *)
Lemma New_Ok_inv (ttl pattern domain : string) (tmpls : list string) s :
  New GOARCH IsDevAppServer BaseTemplate Glob ParseFiles
      ttl pattern domain tmpls = Ok s ->
  exists filePaths,
    getFiles Glob (mkSite domain ttl pattern tmpls ∅ : Site Template Any)
    = (filePaths, None)
    /\ readPages GOARCH IsDevAppServer BaseTemplate ParseFiles
         (mkSite domain ttl pattern tmpls ∅) filePaths = Ok (s, None).
Proof.
  unfold New, read.
  destruct (getFiles Glob (mkSite domain ttl pattern tmpls ∅ : Site Template Any))
    as [filePaths [e|]]; cbn; [discriminate|].
  change (setPages (mkSite domain ttl pattern tmpls ∅) ∅)
    with (mkSite (Template:=Template) (Any:=Any) domain ttl pattern tmpls ∅).
  destruct (readPages GOARCH IsDevAppServer BaseTemplate ParseFiles
              (mkSite domain ttl pattern tmpls ∅) filePaths)
    as [[s1 [e|]]|f|msg] eqn:Hread; cbn; try discriminate.
  intros [= <-]. now exists filePaths.
Qed.

(** X8.  When [New] returns a site, every path that [getFiles] kept was
    parsed without error, its templates (the shared ones, then the page's
    own) compiled, and its URI is a key of the registry; the site keeps
    the title, glob, live domain and shared templates it was given. *)
Theorem New_serves_every_file (ttl pattern domain : string)
        (tmpls : list string) s :
  New GOARCH IsDevAppServer BaseTemplate Glob ParseFiles
      ttl pattern domain tmpls = Ok s ->
  (liveDomain s = domain /\ title s = ttl
   /\ glob s = pattern /\ templates s = tmpls)
  /\ exists filePaths,
       getFiles Glob (mkSite domain ttl pattern tmpls ∅ : Site Template Any)
       = (filePaths, None)
       /\ forall path, In path filePaths ->
          exists uri d t,
            parsePath GOARCH path = (uri, d, None)
            /\ ParseFiles BaseTemplate
                 (mkFuncMap (negb IsDevAppServer)
                            (if negb IsDevAppServer then domain else ""))
                 (tmpls ++ [path])%list = inl t
            /\ is_Some (pages s !! uri).
Proof.
  intros Hnew. apply New_Ok_inv in Hnew as (filePaths & Hfiles & Hread).
  apply readPages_ok in Hread as (Hcfg & _ & Hpaths & _).
  split; [exact Hcfg|]. exists filePaths. split; [exact Hfiles|].
  exact Hpaths.
Qed.

(** X9.  When [New] returns a site, every page of the registry comes
    from a path that [getFiles] kept: its key and [URI] are the URI
    [parsePath] gives for that path, its date the date of the path, its
    title the site's, its data [nil], its redirect URI empty, and its
    template the compiled templates of the path. *)
Theorem New_pages_from_files (ttl pattern domain : string)
        (tmpls : list string) s (k : string) p :
  New GOARCH IsDevAppServer BaseTemplate Glob ParseFiles
      ttl pattern domain tmpls = Ok s ->
  pages s !! k = Some p ->
  exists path d t,
    In path (fst (getFiles Glob
                    (mkSite domain ttl pattern tmpls ∅ : Site Template Any)))
    /\ parsePath GOARCH path = (k, d, None)
    /\ ParseFiles BaseTemplate
         (mkFuncMap (negb IsDevAppServer)
                    (if negb IsDevAppServer then domain else ""))
         (tmpls ++ [path])%list = inl t
    /\ p = mkPage ttl d k None "" (Some t).
Proof.
  intros Hnew Hp. apply New_Ok_inv in Hnew as (filePaths & Hfiles & Hread).
  apply readPages_ok in Hread as (_ & _ & _ & Hpages).
  destruct (Hpages k p Hp) as [Hold|H]; [discriminate Hold|].
  now rewrite Hfiles.
Qed.

(** The loop of [read] passes over a run of paths that parse and
    compile and keeps the configuration. *)
Lemma readPages_good_prefix (good : list string) :
  forall s (rest : list string),
    (forall path, In path good ->
       exists uri d t,
         parsePath GOARCH path = (uri, d, None)
         /\ ParseFiles BaseTemplate (getFuncs Template Any IsDevAppServer s)
                       (templates s ++ [path])%list = inl t) ->
    exists s1,
      liveDomain s1 = liveDomain s /\ title s1 = title s
      /\ templates s1 = templates s
      /\ readPages GOARCH IsDevAppServer BaseTemplate ParseFiles s (good ++ rest)
         = readPages GOARCH IsDevAppServer BaseTemplate ParseFiles s1 rest.
Proof.
  induction good as [|path good IH]; intros s rest Hgood.
  - now exists s.
  - destruct (Hgood path (or_introl eq_refl)) as (uri & d & t & Hparse & Hcompile).
    cbn [app]. rewrite (readPages_cons_ok _ _ _ _ _ _ Hparse Hcompile).
    destruct (IH (setPages s (<[uri := mkPage (title s) d uri None "" (Some t)]>
                                (pages s))) rest) as (s1 & Hlive & Httl & Htmpls & Heq).
    + intros path' Hin. apply Hgood. now right.
    + exists s1. now rewrite Heq.
Qed.

(** X10.  [New] is fatal with the error of [parsePath] at the first path
    kept by [getFiles] that does not parse, when the paths before it
    parse and compile; no site is returned, whatever follows that path. *)
Theorem New_fatal_at_bad_path (ttl pattern domain : string) (tmpls : list string)
        (good rest : list string) (bad : string) (e : error) :
  getFiles Glob (mkSite domain ttl pattern tmpls ∅ : Site Template Any)
  = ((good ++ bad :: rest)%list, None) ->
  (forall path, In path good ->
     exists uri d t,
       parsePath GOARCH path = (uri, d, None)
       /\ ParseFiles BaseTemplate
            (mkFuncMap (negb IsDevAppServer)
                       (if negb IsDevAppServer then domain else ""))
            (tmpls ++ [path])%list = inl t) ->
  snd (parsePath GOARCH bad) = Some e ->
  New (Any:=Any) GOARCH IsDevAppServer BaseTemplate Glob ParseFiles
      ttl pattern domain tmpls
  = Fatal (FatalError e).
Proof.
  intros Hfiles Hgood Hbad. unfold New, read. rewrite Hfiles.
  change (setPages (mkSite domain ttl pattern tmpls ∅) ∅)
    with (mkSite (Template:=Template) (Any:=Any) domain ttl pattern tmpls ∅).
  destruct (readPages_good_prefix good (mkSite domain ttl pattern tmpls ∅)
              (bad :: rest) Hgood) as (s1 & _ & _ & _ & ->).
  cbn [readPages]. destruct (parsePath GOARCH bad) as [[uri d] err].
  cbn [snd] in Hbad. subst err. reflexivity.
Qed.

(** X11.  [New] panics, with the message of the template engine, at the
    first path kept by [getFiles] whose templates do not compile, when
    the paths before it parse and compile and the path itself parses. *)
Theorem New_panics_at_bad_template (ttl pattern domain : string)
        (tmpls : list string) (good rest : list string) (bad uri : string)
        (d : date) (msg : string) :
  getFiles Glob (mkSite domain ttl pattern tmpls ∅ : Site Template Any)
  = ((good ++ bad :: rest)%list, None) ->
  (forall path, In path good ->
     exists uri' d' t,
       parsePath GOARCH path = (uri', d', None)
       /\ ParseFiles BaseTemplate
            (mkFuncMap (negb IsDevAppServer)
                       (if negb IsDevAppServer then domain else ""))
            (tmpls ++ [path])%list = inl t) ->
  parsePath GOARCH bad = (uri, d, None) ->
  ParseFiles BaseTemplate
    (mkFuncMap (negb IsDevAppServer)
               (if negb IsDevAppServer then domain else ""))
    (tmpls ++ [bad])%list = inr msg ->
  New (Any:=Any) GOARCH IsDevAppServer BaseTemplate Glob ParseFiles
      ttl pattern domain tmpls
  = Panic msg.
Proof.
  intros Hfiles Hgood Hparse Hcompile. unfold New, read. rewrite Hfiles.
  change (setPages (mkSite domain ttl pattern tmpls ∅) ∅)
    with (mkSite (Template:=Template) (Any:=Any) domain ttl pattern tmpls ∅).
  destruct (readPages_good_prefix good (mkSite domain ttl pattern tmpls ∅)
              (bad :: rest) Hgood) as (s1 & Hlive & _ & Htmpls & ->).
  cbn [readPages]. rewrite Hparse. unfold addPage, getFuncs.
  rewrite Hlive, Htmpls. cbn [liveDomain templates].
  rewrite Hcompile. now destruct tmpls.
Qed.

Lemma New_keyedByURI (ttl pattern domain : string) (tmpls : list string) s :
  New GOARCH IsDevAppServer BaseTemplate Glob ParseFiles
      ttl pattern domain tmpls = Ok s ->
  keyedByURI (pages s).
Proof.
  intros Hnew k p Hp.
  apply New_Ok_inv in Hnew as (filePaths & _ & Hread).
  apply readPages_ok in Hread as (_ & _ & _ & Hpages).
  destruct (Hpages k p Hp) as [Hold|(path & d & t & _ & _ & _ & ->)];
    [discriminate Hold | reflexivity].
Qed.

Lemma mutate_keyedByURI s (c : mutation) s' :
  keyedByURI (pages s) -> mutate s c = Ok s' -> keyedByURI (pages s').
Proof.
  intros Hs. destruct c as [uri newURI | uri target]; cbn [mutate]; intros H.
  - apply ChangeURI_pages in H as (p & _ & ->).
    apply keyedByURI_insert; [reflexivity|]. now apply keyedByURI_delete.
  - apply AddRedirect_pages in H as [_ ->]. now apply keyedByURI_insert.
Qed.

(** X12.  In a site that [New] returned, also after any sequence of
    [ChangeURI] and [AddRedirect] calls that ran to its end, every page
    is stored under its own [URI]. *)
Theorem registry_keyedByURI (ttl pattern domain : string) (tmpls : list string)
        s0 (cs : list mutation) s :
  New GOARCH IsDevAppServer BaseTemplate Glob ParseFiles
      ttl pattern domain tmpls = Ok s0 ->
  mutateAll s0 cs = Ok s ->
  keyedByURI (pages s).
Proof.
  intros Hnew. apply New_keyedByURI in Hnew. revert s0 Hnew.
  induction cs as [|c cs IH]; intros s0 Hs0; cbn [mutateAll].
  - now intros [= <-].
  - destruct (mutate s0 c) as [s1|f|msg] eqn:Hstep; cbn; try discriminate.
    apply IH. exact (mutate_keyedByURI _ _ _ Hs0 Hstep).
Qed.

Lemma mutateAll_templateXorRedirect (cs : list mutation) :
  forall s0 s,
    Forall redirectGiven cs ->
    map_Forall (fun _ => templateXorRedirect) (pages s0) ->
    mutateAll s0 cs = Ok s ->
    map_Forall (fun _ => templateXorRedirect) (pages s).
Proof.
  induction cs as [|c cs IH]; intros s0 s Hcs Hs0; cbn [mutateAll].
  - now intros [= <-].
  - inversion Hcs as [|? ? Hc Hcs']; subst.
    destruct (mutate s0 c) as [s1|f|msg] eqn:Hstep; cbn; try discriminate.
    apply IH; [exact Hcs'|].
    eapply mutate_templateXorRedirect; eassumption.
Qed.

(** X13.  How [ServeHTTP] ends.  It panics exactly when the request URI
    matches, the page has no redirect URI and its template is [nil]; it
    ends the process exactly when the request URI matches, there is no
    redirect URI and the template fails to execute; and it answers 500
    exactly when that failure comes before anything was written. *)
Theorem ServeHTTP_ending p (r : Request) :
  (snd (ServeHTTP BaseTemplate ExecuteTemplate p r) = Panics
   <-> URI p = RequestURI r /\ redirectURI p = "" /\ tmpl p = None)
  /\ (snd (ServeHTTP BaseTemplate ExecuteTemplate p r) = Exits
      <-> URI p = RequestURI r /\ redirectURI p = ""
          /\ exists t, tmpl p = Some t
                       /\ is_Some (snd (ExecuteTemplate t BaseTemplate p)))
  /\ (status (fst (ServeHTTP BaseTemplate ExecuteTemplate p r))
      = Some StatusInternalServerError
      <-> URI p = RequestURI r /\ redirectURI p = ""
          /\ exists t e, tmpl p = Some t
                         /\ ExecuteTemplate t BaseTemplate p = ([], Some e)).
Proof.
  unfold ServeHTTP.
  destruct (String.eqb_spec (URI p) (RequestURI r)) as [Huri|Huri]; cbn [negb].
  2:{ repeat split; try discriminate; tauto. }
  destruct (String.eqb_spec (redirectURI p) "") as [Hred|Hred]; cbn [negb].
  2:{ repeat split; try discriminate; tauto. }
  destruct (tmpl p) as [t|].
  2:{ repeat split; try discriminate; try tauto.
      - intros (_ & _ & t & [=] & _).
      - intros (_ & _ & t & e & [=] & _). }
  destruct (ExecuteTemplate t BaseTemplate p) as [chunks [e|]] eqn:Hexec; cbn [fst snd].
  - split; [|split].
    + split; [discriminate | intros (_ & _ & [=])].
    + split; [|reflexivity]. intros _. repeat split; try assumption.
      exists t. rewrite Hexec. eauto.
    + destruct chunks as [|chunk chunks]; cbn.
      * split; [|reflexivity]. intros _. repeat split; try assumption. eauto.
      * split; [discriminate|]. intros (_ & _ & t' & e' & [= <-] & H).
        rewrite Hexec in H. discriminate H.
  - split; [|split].
    + split; [discriminate | intros (_ & _ & [=])].
    + split; [discriminate|]. intros (_ & _ & t' & [= <-] & H).
      rewrite Hexec in H. destruct H; discriminate.
    + destruct chunks as [|chunk chunks]; cbn.
      * split; [discriminate|]. intros (_ & _ & t' & e' & [= <-] & H).
        rewrite Hexec in H. discriminate H.
      * split; [discriminate|]. intros (_ & _ & t' & e' & [= <-] & H).
        rewrite Hexec in H. discriminate H.
Qed.

(** X14.  No handler of a site built by [New] panics: after [New] and any
    sequence of [ChangeURI] and [AddRedirect] calls that ran to its end,
    every [AddRedirect] with a non-empty redirect URI, [ServeHTTP] of a
    page of the registry never dereferences a [nil] template, whatever
    the request. *)
Theorem handlers_never_panic (ttl pattern domain : string) (tmpls : list string)
        s0 (cs : list mutation) s (k : string) p (r : Request) :
  New GOARCH IsDevAppServer BaseTemplate Glob ParseFiles
      ttl pattern domain tmpls = Ok s0 ->
  Forall redirectGiven cs ->
  mutateAll s0 cs = Ok s ->
  pages s !! k = Some p ->
  snd (ServeHTTP BaseTemplate ExecuteTemplate p r) <> Panics.
Proof.
  intros Hnew Hcs Hrun Hp.
  apply New_templateXorRedirect in Hnew.
  pose proof (mutateAll_templateXorRedirect cs _ _ Hcs Hnew Hrun k p Hp) as Hxor.
  unfold ServeHTTP.
  destruct (negb (String.eqb (URI p) (RequestURI r))); [discriminate|].
  destruct Hxor as [[[t Ht] Hred] | [_ Hred]].
  - rewrite Hred, Ht. cbn.
    destruct (ExecuteTemplate t BaseTemplate p) as [chunks [e|]]; discriminate.
  - destruct (String.eqb_spec (redirectURI p) ""); [contradiction | discriminate].
Qed.

(** ** Remapping and redirects *)

Lemma setURI_own_URI p : setURI p (URI p) = p.
Proof. now destruct p. Qed.

Lemma setPages_own_pages s : setPages s (pages s) = s.
Proof. now destruct s. Qed.

(** X15.  Moving a page to a free URI and back restores the site: on a
    registry keyed by URI that holds [oldURI] and not [newURI],
    [ChangeURI(oldURI, newURI)] followed by [ChangeURI(newURI, oldURI)]
    succeeds and leaves the site as it was. *)
Theorem ChangeURI_there_and_back s (oldURI newURI : string) p :
  keyedByURI (pages s) ->
  pages s !! oldURI = Some p ->
  pages s !! newURI = None ->
  exists s1,
    ChangeURI s oldURI newURI = Ok s1
    /\ ChangeURI s1 newURI oldURI = Ok s.
Proof.
  intros Hkeyed Hold Hnew.
  destruct s as [live0 ttl pattern tmpls m]. cbn [pages] in *.
  unfold ChangeURI at 1. cbn [pages]. rewrite Hold.
  eexists. split; [reflexivity|].
  unfold ChangeURI, setPages. cbn [pages liveDomain title glob templates].
  rewrite lookup_insert_eq. do 2 f_equal.
  rewrite delete_insert_eq.
  assert (Hne : oldURI <> newURI) by congruence.
  rewrite (delete_id (delete oldURI m) newURI)
    by now rewrite lookup_delete_ne.
  rewrite insert_delete_eq.
  apply insert_id. rewrite Hold. f_equal.
  pose proof (Hkeyed _ _ Hold) as Hk.
  destruct p as [ttl' d uri data red t]. unfold setURI. cbn in *.
  congruence.
Qed.

(** X16.  The keys after a successful [ChangeURI(oldURI, newURI)] are
    the keys before it without [oldURI] and with [newURI]; the number of
    pages is unchanged when [newURI] was free or is [oldURI] itself, and
    on a registry keyed by URI [ChangeURI(uri, uri)] changes nothing. *)
Theorem ChangeURI_keys s (oldURI newURI : string) s' :
  ChangeURI s oldURI newURI = Ok s' ->
  dom (pages s') = {[newURI]} ∪ (dom (pages s) ∖ {[oldURI]})
  /\ (pages s !! newURI = None \/ newURI = oldURI ->
      size (pages s') = size (pages s))
  /\ (keyedByURI (pages s) -> newURI = oldURI -> s' = s).
Proof.
  intros H. apply ChangeURI_pages in H as (p & Hp & ->). cbn [pages setPages].
  split; [|split].
  - now rewrite dom_insert_L, dom_delete_L.
  - intros Hfree.
    assert (Hgone : delete oldURI (pages s) !! newURI = None).
    { destruct Hfree as [Hfree | ->]; [|apply lookup_delete_eq].
      destruct (decide (oldURI = newURI)) as [->|Hne];
        [apply lookup_delete_eq | now rewrite lookup_delete_ne]. }
    rewrite (map_size_insert_None _ _ _ Hgone).
    rewrite map_size_delete_Some by (rewrite Hp; eauto).
    assert (size (pages s) <> 0%nat); [|lia].
    intros Hzero. apply map_size_empty_inv in Hzero.
    rewrite Hzero, lookup_empty in Hp. discriminate.
  - intros Hkeyed ->. rewrite insert_delete_eq.
    assert (Hsame : setURI p oldURI = p)
      by (rewrite <- (Hkeyed _ _ Hp); apply setURI_own_URI).
    rewrite Hsame, (insert_id _ _ _ Hp).
    apply setPages_own_pages.
Qed.

(** X17.  A successful [AddRedirect(uri, redirectURI)] adds one page,
    under [uri], with the site's title, no date, no data and no template,
    and leaves every other entry and the configuration as they were. *)
Theorem AddRedirect_adds_one_page s (uri target : string) s' :
  AddRedirect s uri target = Ok s' ->
  pages s' !! uri = Some (mkPage (title s) zeroDate uri None target None)
  /\ (forall k : string, k <> uri -> pages s' !! k = pages s !! k)
  /\ size (pages s') = S (size (pages s))
  /\ (liveDomain s' = liveDomain s /\ title s' = title s
      /\ glob s' = glob s /\ templates s' = templates s).
Proof.
  intros H. apply AddRedirect_pages in H as [Hfree ->]. cbn [pages setPages].
  split; [apply lookup_insert_eq|]. split; [|split].
  - intros k Hk. now rewrite lookup_insert_ne.
  - now apply map_size_insert_None.
  - now repeat split.
Qed.

(** X18.  A redirect can be remapped: after [AddRedirect(uri, target)],
    [ChangeURI(uri, newURI)] succeeds, and the page under [newURI]
    answers a request for [newURI] by the redirect to [target] (for a
    non-empty [target]); a request for the old [uri] to that page gets
    404. *)
Theorem AddRedirect_then_ChangeURI s (uri target newURI : string) s1 :
  AddRedirect s uri target = Ok s1 ->
  target <> "" ->
  exists s2 p,
    ChangeURI s1 uri newURI = Ok s2
    /\ pages s2 !! newURI = Some p
    /\ ServeHTTP BaseTemplate ExecuteTemplate p (mkRequest newURI)
       = ([Redirect target StatusFound], Returns)
    /\ (uri <> newURI ->
        pages s2 !! uri = None
        /\ ServeHTTP BaseTemplate ExecuteTemplate p (mkRequest uri)
           = ([NotFound], Returns)).
Proof.
  intros H Htarget. apply AddRedirect_pages in H as [_ ->].
  unfold ChangeURI. cbn [pages setPages]. rewrite lookup_insert_eq.
  eexists _, _. split; [reflexivity|]. cbn [pages setPages].
  split; [apply lookup_insert_eq|].
  unfold ServeHTTP, setURI. cbn [URI RequestURI redirectURI].
  split.
  - rewrite String.eqb_refl. cbn [negb].
    destruct (String.eqb_spec target ""); [contradiction | reflexivity].
  - intros Hne. split.
    + rewrite lookup_insert_ne by congruence. apply lookup_delete_eq.
    + destruct (String.eqb_spec newURI uri); [congruence | reflexivity].
Qed.

(** ** Handler registration *)


(** X20.  On a registry keyed by URI [Register] never hands the same
    pattern to [http.Handle] twice (which would panic), on the
    development server and live; on the development server this holds
    for every registry. *)
Theorem Register_patterns_distinct s :
  keyedByURI (pages s) \/ IsDevAppServer = true ->
  NoDup (fst <$> Register Template Any IsDevAppServer s).
Proof.
  intros Hcase. unfold Register. rewrite <- list_fmap_compose.
  apply NoDup_fmap_2_strong; [|apply NoDup_map_to_list].
  intros [k1 p1] [k2 p2] H1 H2. cbn.
  apply elem_of_map_to_list in H1, H2.
  assert (Hkeys : k1 = k2 -> (k1, p1) = (k2, p2)).
  { intros ->. rewrite H1 in H2. now injection H2 as ->. }
  destruct IsDevAppServer.
  - exact Hkeys.
  - destruct Hcase as [Hkeyed | [=]].
    intros Heq. apply Hkeys.
    apply (inj (String.append (liveDomain s))) in Heq.
    now rewrite <- (Hkeyed _ _ H1), <- (Hkeyed _ _ H2).
Qed.

End Construction.

(** ** The older revision *)

Section LegacyProperties.

Variable Template : Type.
Variable Any : Type.
Variable GOARCH : arch.
Variable IsDevAppServer : bool.
Variable Glob : string -> list string * option error.
Variable ParseFiles : list string -> Template + string.
Variable ExecuteTemplate :
  Template -> string -> Legacy.page Template Any -> list string * option string.

Implicit Types (s : LegacySite.Site Template Any) (p : Legacy.page Template Any).

(** X21.  [ChangeURI] of the older revision: on a registry that holds
    [oldURI] it succeeds, leaves [newURI] bound to that page with its
    [URI] field set to [newURI] and the other fields as they were, no
    entry under [oldURI] when the two differ, and every other entry
    untouched; on a registry without [oldURI] it is fatal. *)
Theorem Legacy_ChangeURI_moves_page s (oldURI newURI : string) :
  (forall p, LegacySite.pages s !! oldURI = Some p ->
   exists s',
     LegacySite.ChangeURI s oldURI newURI = Ok s'
     /\ LegacySite.pages s' !! newURI
        = Some (Legacy.mkPage (Legacy.Title p) (Legacy.Date p) newURI
                              (Legacy.IsLive p) (Legacy.Data p) (Legacy.tmpl p))
     /\ (oldURI <> newURI -> LegacySite.pages s' !! oldURI = None)
     /\ (forall k : string, k <> oldURI -> k <> newURI ->
           LegacySite.pages s' !! k = LegacySite.pages s !! k))
  /\ (LegacySite.pages s !! oldURI = None ->
      LegacySite.ChangeURI s oldURI newURI = Fatal (FatalNoPage oldURI)).
Proof.
  split.
  - intros p Hp. unfold LegacySite.ChangeURI. rewrite Hp.
    eexists. split; [reflexivity|]. cbn [LegacySite.pages LegacySite.setPages].
    split; [apply lookup_insert_eq|]. split.
    + intros Hne. rewrite lookup_insert_ne by congruence. apply lookup_delete_eq.
    + intros k Hold Hnew. rewrite lookup_insert_ne by congruence.
      now rewrite lookup_delete_ne by congruence.
  - intros Habsent. unfold LegacySite.ChangeURI. now rewrite Habsent.
Qed.

Lemma Legacy_readPages_built (filePaths : list string) :
  forall s s' (err : option error),
    map_Forall (legacyBuilt IsDevAppServer) (LegacySite.pages s) ->
    LegacySite.readPages GOARCH IsDevAppServer ParseFiles s filePaths
    = Ok (s', err) ->
    map_Forall (legacyBuilt IsDevAppServer) (LegacySite.pages s').
Proof.
  induction filePaths as [|tmplPath rest IH]; intros s s' err Hs;
    cbn [LegacySite.readPages].
  - now intros [= <- _].
  - destruct (parsePath GOARCH tmplPath) as [[uri d] [e|]].
    + now intros [= <- _].
    + unfold LegacySite.addPage.
      destruct (ParseFiles (LegacySite.templates s ++ [tmplPath])%list) as [t|msg];
        cbn; [|discriminate].
      apply IH. cbn [LegacySite.pages LegacySite.setPages].
      apply map_Forall_insert_2; [|exact Hs].
      repeat split. cbn. eauto.
Qed.

Lemma Legacy_ChangeURI_built s (uri newURI : string) s' :
  map_Forall (legacyBuilt IsDevAppServer) (LegacySite.pages s) ->
  LegacySite.ChangeURI s uri newURI = Ok s' ->
  map_Forall (legacyBuilt IsDevAppServer) (LegacySite.pages s').
Proof.
  intros Hs. unfold LegacySite.ChangeURI.
  destruct (LegacySite.pages s !! uri) as [p|] eqn:Hp; [|discriminate].
  intros [= <-]. cbn [LegacySite.pages LegacySite.setPages].
  apply map_Forall_insert_2; [|now apply map_Forall_delete].
  destruct (Hs _ _ Hp) as (_ & Ht & Hlive). now repeat split.
Qed.

(** X22.  In the older revision, after [New] and any sequence of
    [ChangeURI] calls that ran to its end, every page of the registry is
    stored under its own [URI], has a compiled template and has [IsLive]
    the negation of [appengine.IsDevAppServer()]; so its handler never
    panics on a [nil] template. *)
Theorem Legacy_registry_built (ttl pattern domain : string) (tmpls : list string)
        s0 (moves : list (string * string)) s (k : string) p (r : Request) :
  LegacySite.New GOARCH IsDevAppServer Glob ParseFiles ttl pattern domain tmpls
  = Ok s0 ->
  LegacySite.changeAll s0 moves = Ok s ->
  LegacySite.pages s !! k = Some p ->
  Legacy.URI p = k
  /\ is_Some (Legacy.tmpl p)
  /\ Legacy.IsLive p = negb IsDevAppServer
  /\ snd (Legacy.ServeHTTP ExecuteTemplate p r) <> Panics.
Proof.
  intros Hnew Hrun Hp.
  assert (Hs0 : map_Forall (legacyBuilt IsDevAppServer) (LegacySite.pages s0)).
  { revert Hnew. unfold LegacySite.New, LegacySite.read.
    destruct (LegacySite.getFiles Template Any Glob
                (LegacySite.mkSite domain ttl pattern tmpls ∅))
      as [filePaths [e|]]; cbn; [discriminate|].
    destruct (LegacySite.readPages GOARCH IsDevAppServer ParseFiles
                (LegacySite.setPages (LegacySite.mkSite domain ttl pattern tmpls ∅) ∅)
                filePaths) as [[s1 [e|]]|f|msg] eqn:Hread; cbn; try discriminate.
    intros [= <-].
    exact (Legacy_readPages_built _ _ _ _ (map_Forall_empty _) Hread). }
  assert (Hs : map_Forall (legacyBuilt IsDevAppServer) (LegacySite.pages s)).
  { clear Hnew Hp. revert s0 Hs0 Hrun.
    induction moves as [|[uri newURI] moves IH]; intros s0 Hs0;
      cbn [LegacySite.changeAll].
    - now intros [= <-].
    - destruct (LegacySite.ChangeURI s0 uri newURI) as [s1|f|msg] eqn:Hstep;
        cbn; try discriminate.
      apply IH. exact (Legacy_ChangeURI_built _ _ _ _ Hs0 Hstep). }
  destruct (Hs _ _ Hp) as (Huri & [t Ht] & Hlive).
  repeat split; try assumption; [eauto|].
  unfold Legacy.ServeHTTP.
  destruct (negb (String.eqb (Legacy.URI p) (RequestURI r))); [discriminate|].
  rewrite Ht. destruct (ExecuteTemplate t "base" p) as [chunks [e|]]; discriminate.
Qed.

End LegacyProperties.

(** ** The further statements at concrete sites *)

Lemma keyedByURI_blogSite : keyedByURI (pages blogSite).
Proof.
  exact (New_keyedByURI unit unit Arch64 false "base" blogGlob compiles
           "Example" "pages/*.tmpl" "example.com" ["base.tmpl"] blogSite New_blogSite).
Qed.

Lemma New_serves_every_file_witness :
  (liveDomain blogSite = "example.com" /\ title blogSite = "Example"
   /\ glob blogSite = "pages/*.tmpl" /\ templates blogSite = ["base.tmpl"])
  /\ exists filePaths,
       getFiles blogGlob (mkSite "example.com" "Example" "pages/*.tmpl"
                                 ["base.tmpl"] ∅ : Site unit unit)
       = (filePaths, None)
       /\ forall path, In path filePaths ->
          exists uri d t,
            parsePath Arch64 path = (uri, d, None)
            /\ compiles "base" (mkFuncMap (negb false) (if negb false then "example.com" else ""))
                 (["base.tmpl"] ++ [path])%list = inl t
            /\ is_Some (pages blogSite !! uri).
Proof.
  apply (New_serves_every_file unit unit Arch64 false "base" blogGlob compiles
           "Example" "pages/*.tmpl" "example.com" ["base.tmpl"] blogSite).
  reflexivity.
Defined.

Lemma New_pages_from_files_witness :
  exists path d t,
    In path (fst (getFiles blogGlob
                    (mkSite "example.com" "Example" "pages/*.tmpl"
                            ["base.tmpl"] ∅ : Site unit unit)))
    /\ parsePath Arch64 path = ("/2014/05/hello", d, None)
    /\ compiles "base" (mkFuncMap (negb false) (if negb false then "example.com" else ""))
         (["base.tmpl"] ++ [path])%list = inl t
    /\ helloPage = mkPage "Example" d "/2014/05/hello" None "" (Some t).
Proof.
  apply (New_pages_from_files unit unit Arch64 false "base" blogGlob compiles
           "Example" "pages/*.tmpl" "example.com" ["base.tmpl"] blogSite);
    reflexivity.
Defined.

Lemma New_fatal_at_bad_path_witness :
  New (Template:=unit) (Any:=unit) Arch64 false "base" draftGlob compiles
      "Example" "pages/*.tmpl" "example.com" ["base.tmpl"]
  = Fatal (FatalError (ErrBadTemplatePath "pages/drafts/x.tmpl")).
Proof.
  apply (New_fatal_at_bad_path unit unit Arch64 false "base" draftGlob compiles
           "Example" "pages/*.tmpl" "example.com" ["base.tmpl"]
           ["pages/index.tmpl"] ["pages/about.tmpl"] "pages/drafts/x.tmpl").
  - reflexivity.
  - intros path [<-|[]]. exists "/index", zeroDate, tt. split; reflexivity.
  - reflexivity.
Defined.

Lemma New_panics_at_bad_template_witness :
  New (Template:=unit) (Any:=unit) Arch64 false "base" blogGlob compilesButHello
      "Example" "pages/*.tmpl" "example.com" ["base.tmpl"]
  = Panic "template: hello.tmpl: unexpected EOF".
Proof.
  apply (New_panics_at_bad_template unit unit Arch64 false "base" blogGlob
           compilesButHello "Example" "pages/*.tmpl" "example.com" ["base.tmpl"]
           ["pages/index.tmpl"] [] "pages/2014/05/hello.tmpl"
           "/2014/05/hello" (mkDate 2014 5)).
  - reflexivity.
  - intros path [<-|[]]. exists "/index", zeroDate, tt. split; reflexivity.
  - reflexivity.
  - reflexivity.
Defined.

Lemma registry_keyedByURI_witness :
  mutateAll blogSite [DoChangeURI "/index" "/"; DoAddRedirect "/index" "/"]
  = Ok (setPages blogSite
          (<["/index" := redirectPage "/index" "/"]>
             (<["/" := setURI indexPage "/"]> (delete "/index" (pages blogSite)))))
  /\ keyedByURI
       (pages (setPages blogSite
                 (<["/index" := redirectPage "/index" "/"]>
                    (<["/" := setURI indexPage "/"]>
                       (delete "/index" (pages blogSite)))))).
Proof.
  split; [reflexivity|].
  apply (registry_keyedByURI unit unit Arch64 false "base" blogGlob compiles
           "Example" "pages/*.tmpl" "example.com" ["base.tmpl"] blogSite
           [DoChangeURI "/index" "/"; DoAddRedirect "/index" "/"]);
    reflexivity.
Defined.

Lemma handlers_never_panic_witness :
  pages (setPages blogSite (<["/x" := redirectPage "/x" "/y"]> (pages blogSite)))
    !! "/x" = Some (redirectPage "/x" "/y")
  /\ snd (ServeHTTP "base" renders (redirectPage "/x" "/y") (mkRequest "/x"))
     <> Panics.
Proof.
  split; [reflexivity|].
  apply (handlers_never_panic unit unit Arch64 false "base" blogGlob compiles renders
           "Example" "pages/*.tmpl" "example.com" ["base.tmpl"] blogSite
           [DoAddRedirect "/x" "/y"]
           (setPages blogSite (<["/x" := redirectPage "/x" "/y"]> (pages blogSite)))
           "/x").
  - reflexivity.
  - constructor; [discriminate | constructor].
  - reflexivity.
  - reflexivity.
Defined.

Lemma ChangeURI_there_and_back_witness :
  exists s1,
    ChangeURI blogSite "/index" "/" = Ok s1
    /\ ChangeURI s1 "/" "/index" = Ok blogSite.
Proof.
  apply (ChangeURI_there_and_back unit unit blogSite "/index" "/" indexPage).
  - exact keyedByURI_blogSite.
  - reflexivity.
  - reflexivity.
Defined.

Lemma ChangeURI_keys_witness :
  dom (pages (setPages blogSite
                (<["/" := setURI indexPage "/"]> (delete "/index" (pages blogSite)))))
  = {["/"]} ∪ (dom (pages blogSite) ∖ {["/index"]})
  /\ size (pages (setPages blogSite
                    (<["/" := setURI indexPage "/"]>
                       (delete "/index" (pages blogSite)))))
     = size (pages blogSite).
Proof.
  destruct (ChangeURI_keys unit unit blogSite "/index" "/" _ eq_refl)
    as (Hdom & Hsize & _).
  split; [exact Hdom|]. apply Hsize. now left.
Defined.

Lemma AddRedirect_adds_one_page_witness :
  pages (setPages blogSite (<["/x" := redirectPage "/x" "/y"]> (pages blogSite)))
    !! "/x" = Some (mkPage (title blogSite) zeroDate "/x" None "/y" None)
  /\ size (pages (setPages blogSite
                    (<["/x" := redirectPage "/x" "/y"]> (pages blogSite))))
     = S (size (pages blogSite)).
Proof.
  destruct (AddRedirect_adds_one_page unit unit blogSite "/x" "/y" _ eq_refl)
    as (Hpage & _ & Hsize & _).
  split; [exact Hpage | exact Hsize].
Defined.

Lemma AddRedirect_then_ChangeURI_witness :
  exists s2 p,
    ChangeURI (setPages blogSite (<["/x" := redirectPage "/x" "/y"]> (pages blogSite)))
              "/x" "/old"
    = Ok s2
    /\ pages s2 !! "/old" = Some p
    /\ ServeHTTP "base" renders p (mkRequest "/old")
       = ([Redirect "/y" StatusFound], Returns)
    /\ ("/x" <> "/old" ->
        pages s2 !! "/x" = None
        /\ ServeHTTP "base" renders p (mkRequest "/x") = ([NotFound], Returns)).
Proof.
  apply (AddRedirect_then_ChangeURI unit unit "base" renders blogSite "/x" "/y" "/old");
    [reflexivity | discriminate].
Defined.

Lemma Register_patterns_distinct_witness :
  NoDup (fst <$> Register unit unit false blogSite).
Proof.
  apply (Register_patterns_distinct unit unit false blogSite).
  left. exact keyedByURI_blogSite.
Defined.

Lemma Legacy_ChangeURI_moves_page_witness :
  exists s',
    LegacySite.ChangeURI legacyBlogSite "/index" "/" = Ok s'
    /\ LegacySite.pages s' !! "/"
       = Some (Legacy.mkPage "Example" zeroDate "/" true None (Some tt))
    /\ ("/index" <> "/" -> LegacySite.pages s' !! "/index" = None)
    /\ (forall k : string, k <> "/index" -> k <> "/" ->
          LegacySite.pages s' !! k = LegacySite.pages legacyBlogSite !! k).
Proof.
  apply (proj1 (Legacy_ChangeURI_moves_page unit unit legacyBlogSite "/index" "/")
               legacyIndexPage).
  reflexivity.
Defined.

Lemma Legacy_registry_built_witness :
  LegacySite.changeAll legacyBlogSite [("/index", "/")]
  = Ok (LegacySite.setPages legacyBlogSite
          (<["/" := LegacySite.setURI legacyIndexPage "/"]>
             (delete "/index" (LegacySite.pages legacyBlogSite))))
  /\ Legacy.URI (LegacySite.setURI legacyIndexPage "/") = "/"
  /\ is_Some (Legacy.tmpl (LegacySite.setURI legacyIndexPage "/"))
  /\ Legacy.IsLive (LegacySite.setURI legacyIndexPage "/") = negb false
  /\ snd (Legacy.ServeHTTP legacyRenders (LegacySite.setURI legacyIndexPage "/")
                           (mkRequest "/"))
     <> Panics.
Proof.
  split; [reflexivity|].
  apply (Legacy_registry_built unit unit Arch64 false blogGlob legacyCompiles
           legacyRenders "Example" "pages/*.tmpl" "example.com" ["base.tmpl"]
           legacyBlogSite [("/index", "/")]
           (LegacySite.setPages legacyBlogSite
              (<["/" := LegacySite.setURI legacyIndexPage "/"]>
                 (delete "/index" (LegacySite.pages legacyBlogSite))))
           "/").
  - reflexivity.
  - reflexivity.
  - reflexivity.
Defined.
